(** * tasklib/lazy.py: lazy references to tasks and lazy sets of tasks

    A shallow embedding of [LazyUUIDTask] and [LazyUUIDTaskSet].  Methods are
    computations in a small state-and-exception monad: the state is the
    object the method runs on ([self], paired with [other] for the binary
    operations), a result is a value or a raised Python exception, and every
    call that reaches the backend ([tw.tasks.get], [tw.tasks.filter]) is
    logged, so that "no backend call" is a statement about the log. *)

From stdpp Require Import gmap strings list.
From Stdlib Require Import ZArith.

Local Open Scope string_scope.
Local Open Scope list_scope.

(** ** Python values, exceptions, the backend *)

(** The exceptions that can cross this module. [BackendError] stands for
    whatever the store raises on its own. *)
Inductive exn :=
| KeyError (key : string)
| TypeError
| AttributeError
| RecursionError
| BackendError (msg : string).

Inductive result (A : Type) :=
| Ok (a : A)
| Raise (e : exn).
Arguments Ok {A} a.
Arguments Raise {A} e.

(** Attribute values read through [getattr]: the flags are booleans, the
    pending changes a set of field names. *)
Inductive value :=
| VBool (b : bool)
| VStr (s : string)
| VSet (s : gset string).

(** Modelled from the spec: the materialized record type [Task] is not
    defined in lazy.py. It is a record with items read by subscript
    ([task[key]], [KeyError] when the field is missing) and properties read
    as attributes. *)
Record Task := {
  task_data : gmap string string;
  task_attrs : gmap string value
}.

Definition Task_getitem (task : Task) (key : string) : result string :=
  match task_data task !! key with
  | Some v => Ok v
  | None => Raise (KeyError key)
  end.

(** Modelled from the spec: the materialized collection type [TaskQuerySet]
    is not defined in lazy.py; this module only ever looks attributes up on
    it. *)
Record TaskQuerySet := {
  qs_attrs : gmap string value
}.

Definition TaskQuerySet_getattr (qs : TaskQuerySet) (name : string) : result value :=
  match qs_attrs qs !! name with
  | Some v => Ok v
  | None => Raise AttributeError
  end.

(** The store handle [tw]: [tw.tasks.get(uuid=...)] and
    [tw.tasks.filter(query)]. *)
Record TaskWarrior := {
  tasks_get : string → result Task;
  tasks_filter : string → result TaskQuerySet
}.

(** What the backend was asked. *)
Inductive call :=
| Get (uuid : string)
| Filter (query : string).

(** ** The method monad *)

Definition M (S A : Type) : Type := S → result A * S * list call.

#[export] Instance M_ret {S} : MRet (M S) := λ A a s, (Ok a, s, []).

#[export] Instance M_bind {S} : MBind (M S) := λ A B f m s,
  match m s with
  | (Ok a, s', calls) =>
      let '(r, s'', calls') := f a s' in (r, s'', calls ++ calls')
  | (Raise e, s', calls) => (Raise e, s', calls)
  end.

Definition raise {S A} (e : exn) : M S A := λ s, (Raise e, s, []).

Definition get_self {S} : M S S := λ s, (Ok s, s, []).

Definition lift_result {S A} (r : result A) : M S A := λ s, (r, s, []).

Definition result_map {A B} (f : A → B) (r : result A) : result B :=
  match r with
  | Ok a => Ok (f a)
  | Raise e => Raise e
  end.

Definition backend_get {S} (tw : TaskWarrior) (uuid : string) : M S Task :=
  λ s, (tasks_get tw uuid, s, [Get uuid]).

Definition backend_filter {S} (tw : TaskWarrior) (query : string) : M S TaskQuerySet :=
  λ s, (tasks_filter tw query, s, [Filter query]).

(** [try: body except KeyError: handler] *)
Definition except_KeyError {S A} (body handler : M S A) : M S A := λ s,
  match body s with
  | (Raise (KeyError _), s', calls) =>
      let '(r, s'', calls') := handler s' in (r, s'', calls ++ calls')
  | outcome => outcome
  end.

(** Run a method on the left or on the right object of a pair. *)
Definition on_self {S O A} (m : M S A) : M (S * O) A := λ '(s, o),
  let '(r, s', calls) := m s in (r, (s', o), calls).

Definition on_other {S O A} (m : M O A) : M (S * O) A := λ '(s, o),
  let '(r, o', calls) := m o in (r, (s, o'), calls).

(** Run a method on every element of a list in turn, as a [for] loop or a
    generator expression does; the first exception stops the loop. *)
Fixpoint for_each {S A} (m : M S A) (l : list S) : result (list A) * list S * list call :=
  match l with
  | [] => (Ok [], [], [])
  | x :: xs =>
      match m x with
      | (Ok a, x', calls) =>
          match for_each m xs with
          | (Ok rest, xs', calls') => (Ok (a :: rest), x' :: xs', calls ++ calls')
          | (Raise e, xs', calls') => (Raise e, x' :: xs', calls ++ calls')
          end
      | (Raise e, x', calls) => (Raise e, x' :: xs, calls)
      end
  end.

(** [sep.join(l)] *)
Fixpoint join (sep : string) (l : list string) : string :=
  match l with
  | [] => ""
  | [x] => x
  | x :: xs => (x ++ sep ++ join sep xs)%string
  end.

(** [getattr(obj, name, default)] where [obj] is [None] or a [Task]. *)
Definition getattr_default (obj : option Task) (name : string) (dflt : value) : value :=
  match obj with
  | Some task => default dflt (task_attrs task !! name)
  | None => dflt
  end.

(** ** class LazyUUIDTask *)

Module LazyUUIDTask.

Record t := {
  _tw : TaskWarrior;
  uuid : string;
  content : option Task
}.

Definition __init__ (tw : TaskWarrior) (uuid : string) : t :=
  {| _tw := tw; uuid := uuid; content := None |}.

(** [self.content = c] *)
Definition with_content (c : option Task) (self : t) : t :=
  {| _tw := _tw self; uuid := uuid self; content := c |}.

Definition set_content (c : option Task) : M t unit := λ self,
  (Ok tt, with_content c self, []).

Definition refresh : M t unit :=
  self ← get_self;
  task ← backend_get (_tw self) (uuid self);
  set_content (Some task).

Definition __getitem__ (key : string) : M t string :=
  self ← get_self;
  if String.eqb key "uuid" then mret (uuid self)
  else
    refresh;;
    self ← get_self;
    match content self with
    | Some task => lift_result (Task_getitem task key)
    | None => raise TypeError  (* [None[key]]; never after a [refresh] that returned *)
    end.

Definition completed : M t value :=
  refresh;;
  self ← get_self;
  mret (getattr_default (content self) "completed" (VBool false)).

Definition modified : M t value :=
  refresh;;
  self ← get_self;
  mret (getattr_default (content self) "modified" (VBool false)).

Definition saved : M t value :=
  refresh;;
  self ← get_self;
  mret (getattr_default (content self) "saved" (VBool true)).

Definition _modified_fields : M t value :=
  self ← get_self;
  mret (getattr_default (content self) "_modified_fields" (VSet ∅)).

Definition __repr__ (self : t) : string := ("LazyUUIDTask: " ++ uuid self)%string.

Section Hash.
(** Python's builtin [hash] on strings. *)
Variable hash : string → Z.

Definition __hash__ (self : t) : Z := hash (uuid self).
End Hash.

(** The objects a task is compared with or that a set operation meets as
    elements: something that is not subscriptable ([None], a number), a
    materialized [Task], or another lazy task. *)
Inductive pyobj :=
| ONone
| OTask (task : Task)
| OLazy (task : t).

(** [obj[key]] *)
Definition subscript (key : string) : M pyobj string := λ obj,
  match obj with
  | ONone => (Raise TypeError, obj, [])
  | OTask task => (Task_getitem task key, obj, [])
  | OLazy task => let '(r, task', calls) := __getitem__ key task in (r, OLazy task', calls)
  end.

Definition __eq__ : M (t * pyobj) bool :=
  except_KeyError
    (a ← on_self (__getitem__ "uuid");
     b ← on_other (subscript "uuid");
     mret (bool_decide (a = b)))
    (mret false).

End LazyUUIDTask.

(** ** class LazyUUIDTaskSet *)

Module LazyUUIDTaskSet.

Abbreviation pyobj := LazyUUIDTask.pyobj.

Record t := {
  _tw : TaskWarrior;
  _uuids : gset string
}.

(** What a variable that was bound to a [LazyUUIDTaskSet] refers to: an
    instance of this class, or, once [refresh] has replaced its [__class__]
    and its [__dict__], the [TaskQuerySet] the backend returned. *)
Inductive object :=
| Lazy (self : t)
| Swapped (replacement : TaskQuerySet).

(** [set(uuids)] of any iterable of identifiers. *)
Definition __init__ (tw : TaskWarrior) (uuids : list string) : t :=
  {| _tw := tw; _uuids := list_to_set uuids |}.

(** [self._uuids = ids] *)
Definition with_uuids (ids : gset string) (self : t) : t :=
  {| _tw := _tw self; _uuids := ids |}.

Definition set_uuids (ids : gset string) : M t unit := λ self,
  (Ok tt, with_uuids ids self, []).

(** The right-hand operands of the set operations: something that cannot
    be iterated, a list (or any plain collection) of objects, or another
    lazy set. *)
Inductive iterable :=
| NotIterable
| PyList (l : list pyobj)
| LazySet (s : t).

Definition __repr__ (self : t) : string :=
  ("LazyUUIDTaskSet([" ++ join ", " (elements (_uuids self)) ++ "])")%string.

Definition __len__ : M t nat :=
  self ← get_self;
  mret (size (_uuids self)).

(** The generator is run to its end: one fresh [LazyUUIDTask] per stored
    identifier, in the set's own order. *)
Definition __iter__ : M t (list LazyUUIDTask.t) :=
  self ← get_self;
  mret (LazyUUIDTask.__init__ (_tw self) <$> elements (_uuids self)).

(** [set(t['uuid'] for t in other)] *)
Definition uuids_of : M iterable (gset string) := λ other,
  match other with
  | NotIterable => (Raise TypeError, other, [])
  | PyList l =>
      let '(r, l', calls) := for_each (LazyUUIDTask.subscript "uuid") l in
      (result_map list_to_set r, PyList l', calls)
  | LazySet s =>
      match __iter__ s with
      | (Ok tasks, s', calls) =>
          let '(r, _, calls') := for_each (LazyUUIDTask.__getitem__ "uuid") tasks in
          (result_map list_to_set r, LazySet s', calls ++ calls')
      | (Raise e, s', calls) => (Raise e, LazySet s', calls)
      end
  end.

Definition __eq__ : M (t * iterable) bool :=
  ids ← on_other uuids_of;
  self ← on_self get_self;
  mret (bool_decide (ids = _uuids self)).

Definition __ne__ : M (t * iterable) bool :=
  b ← __eq__;
  mret (negb b).

Definition __contains__ : M (t * pyobj) bool :=
  u ← on_other (LazyUUIDTask.subscript "uuid");
  self ← on_self get_self;
  mret (bool_decide (u ∈ _uuids self)).

(** Python's [^] on sets. *)
Definition symmetric (a b : gset string) : gset string := (a ∖ b) ∪ (b ∖ a).

Definition union : M (t * iterable) t :=
  self ← on_self get_self;
  ids ← on_other uuids_of;
  mret (__init__ (_tw self) (elements (_uuids self ∪ ids))).

Definition intersection : M (t * iterable) t :=
  self ← on_self get_self;
  ids ← on_other uuids_of;
  mret (__init__ (_tw self) (elements (_uuids self ∩ ids))).

Definition difference : M (t * iterable) t :=
  self ← on_self get_self;
  ids ← on_other uuids_of;
  mret (__init__ (_tw self) (elements (_uuids self ∖ ids))).

Definition symmetric_difference : M (t * iterable) t :=
  self ← on_self get_self;
  ids ← on_other uuids_of;
  mret (__init__ (_tw self) (elements (symmetric (_uuids self) ids))).

Definition update : M (t * iterable) t :=
  self ← on_self get_self;
  ids ← on_other uuids_of;
  on_self (set_uuids (_uuids self ∪ ids));;
  on_self get_self.

Definition intersection_update : M (t * iterable) t :=
  self ← on_self get_self;
  ids ← on_other uuids_of;
  on_self (set_uuids (_uuids self ∩ ids));;
  on_self get_self.

Definition difference_update : M (t * iterable) t :=
  self ← on_self get_self;
  ids ← on_other uuids_of;
  on_self (set_uuids (_uuids self ∖ ids));;
  on_self get_self.

Definition symmetric_difference_update : M (t * iterable) t :=
  self ← on_self get_self;
  ids ← on_other uuids_of;
  on_self (set_uuids (symmetric (_uuids self) ids));;
  on_self get_self.

Definition __sub__ : M (t * iterable) t := difference.

Definition __isub__ : M (t * iterable) t := difference_update.

Definition __rsub__ : M (t * iterable) t :=
  ids ← on_other uuids_of;
  self ← on_self get_self;
  mret (__init__ (_tw self) (elements (ids ∖ _uuids self))).

Definition __or__ : M (t * iterable) t := union.

Definition __ior__ : M (t * iterable) t := update.

Definition __ror__ : M (t * iterable) t := union.

Definition __xor__ : M (t * iterable) t := symmetric_difference.

Definition __ixor__ : M (t * iterable) t := symmetric_difference_update.

Definition __rxor__ : M (t * iterable) t := symmetric_difference.

Definition __and__ : M (t * iterable) t := intersection.

Definition __iand__ : M (t * iterable) t := intersection_update.

Definition __rand__ : M (t * iterable) t := intersection.

(** [[task in self for task in l]]: [task in self] is [self.__contains__(task)],
    asked for every element in turn; the first exception ends the loop. *)
Fixpoint contains_each (self : t) (l : list pyobj)
    : result (list bool) * (t * list pyobj) * list call :=
  match l with
  | [] => (Ok [], (self, []), [])
  | task :: rest =>
      match __contains__ (self, task) with
      | (Ok b, (self', task'), calls) =>
          match contains_each self' rest with
          | (Ok bs, (self'', rest'), calls') =>
              (Ok (b :: bs), (self'', task' :: rest'), calls ++ calls')
          | (Raise e, (self'', rest'), calls') =>
              (Raise e, (self'', task' :: rest'), calls ++ calls')
          end
      | (Raise e, (self', task'), calls) => (Raise e, (self', task' :: rest), calls)
      end
  end.

(** [all([task in self for task in other])] *)
Definition issuperset : M (t * iterable) bool := λ '(self, other),
  match other with
  | NotIterable => (Raise TypeError, (self, other), [])
  | PyList l =>
      let '(r, (self', l'), calls) := contains_each self l in
      (result_map (forallb id) r, (self', PyList l'), calls)
  | LazySet s =>
      match __iter__ s with
      | (Ok tasks, s', calls) =>
          let '(r, (self', _), calls') :=
            contains_each self (LazyUUIDTask.OLazy <$> tasks) in
          (result_map (forallb id) r, (self', LazySet s'), calls ++ calls')
      | (Raise e, s', calls) => (Raise e, (self, LazySet s'), calls)
      end
  end.

Definition __ge__ : M (t * iterable) bool := issuperset.

Definition add : M (t * pyobj) unit :=
  self ← on_self get_self;
  u ← on_other (LazyUUIDTask.subscript "uuid");
  on_self (set_uuids ({[u]} ∪ _uuids self)).

(** [set.remove(x)] raises [KeyError(x)] when [x] is not a member. *)
Definition remove : M (t * pyobj) unit :=
  self ← on_self get_self;
  u ← on_other (LazyUUIDTask.subscript "uuid");
  if bool_decide (u ∈ _uuids self)
  then on_self (set_uuids (_uuids self ∖ {[u]}))
  else raise (KeyError u).

(** [set.pop()] removes and returns some member, the first in the set's
    own order, and raises [KeyError] on the empty set. *)
Definition pop : M t string :=
  self ← get_self;
  match elements (_uuids self) with
  | [] => raise (KeyError "pop from an empty set")
  | u :: _ => set_uuids (_uuids self ∖ {[u]});; mret u
  end.

Definition clear : M t unit := set_uuids ∅.

(** [refresh] asks the backend for the tasks with the stored identifiers
    and turns [self] into the answer. *)
Definition refresh (self : t) : result unit * object * list call :=
  let query := join " " (elements (_uuids self)) in
  match tasks_filter (_tw self) query with
  | Ok replacement => (Ok tt, Swapped replacement, [Filter query])
  | Raise e => (Raise e, Lazy self, [Filter query])
  end.

(** [__getattr__] is what Python calls when a name is found neither on the
    instance nor on the class. After [refresh], [getattr(self, name)] is
    resolved by the class [self] now has; were [self] still lazy, the lookup
    would come back here without end. *)
Definition __getattr__ (name : string) (self : t) : result value * object * list call :=
  if String.prefix "__" name then (Raise AttributeError, Lazy self, [])
  else
    match refresh self with
    | (Ok _, Swapped qs, calls) => (TaskQuerySet_getattr qs name, Swapped qs, calls)
    | (Ok _, Lazy self', calls) => (Raise RecursionError, Lazy self', calls)
    | (Raise e, self', calls) => (Raise e, self', calls)
    end.

Section lookup.
(** Python's normal attribute lookup on a lazy instance (its own fields,
    then its class, then [object]): [Some v] when the name is found there,
    [None] when that lookup raises [AttributeError]. What [object] provides
    depends on the interpreter and a found attribute can be any object (a
    bound method, the store handle), so the lookup is a parameter. *)
Variable normal_lookup : t → string → option value.

(** [getattr(obj, name)]. On a lazy instance the name is first looked up by
    normal means and [__getattr__] is called only if it could not be found
    that way; once the class is swapped the lookup is the [TaskQuerySet]'s. *)
Definition getattr (name : string) : M object value := λ obj,
  match obj with
  | Lazy self =>
      match normal_lookup self name with
      | Some v => (Ok v, obj, [])
      | None => __getattr__ name self
      end
  | Swapped qs => (TaskQuerySet_getattr qs name, obj, [])
  end.
End lookup.

End LazyUUIDTaskSet.

(** ** A sample backend *)

(** One stored task, [u1], completed and with a pending change to its
    description; a record with no fields at all; and the collection every
    query is answered with. *)
Definition milk_task : Task := {|
  task_data := {[ "uuid" := "u1"; "description" := "buy milk" ]};
  task_attrs := {[ "completed" := VBool true;
                   "_modified_fields" := VSet {[ "description" ]} ]}
|}.

Definition bare_task : Task := {| task_data := ∅; task_attrs := ∅ |}.

Definition found_tasks : TaskQuerySet := {| qs_attrs := {[ "count" := VStr "2" ]} |}.

Definition sample_tw : TaskWarrior := {|
  tasks_get := λ u,
    if String.eqb u "u1" then Ok milk_task else Raise (BackendError "DoesNotExist");
  tasks_filter := λ _, Ok found_tasks
|}.

(** A lazy set of two identifiers, and a list that mixes a fetched task and
    a lazy task and repeats one of them. *)
Definition sample_set : LazyUUIDTaskSet.t :=
  LazyUUIDTaskSet.__init__ sample_tw ["u1"; "u2"].

Definition mixed_list : LazyUUIDTaskSet.iterable :=
  LazyUUIDTaskSet.PyList
    [LazyUUIDTask.OTask milk_task;
     LazyUUIDTask.OLazy (LazyUUIDTask.__init__ sample_tw "u9");
     LazyUUIDTask.OTask milk_task].

(** ** The states a lazy task goes through *)

(** One use of a [LazyUUIDTask] through its interface, whatever it returns
    or raises. *)
Inductive task_step : LazyUUIDTask.t → LazyUUIDTask.t → Prop :=
| step_getitem key self r self' calls :
    LazyUUIDTask.__getitem__ key self = (r, self', calls) → task_step self self'
| step_completed self r self' calls :
    LazyUUIDTask.completed self = (r, self', calls) → task_step self self'
| step_modified self r self' calls :
    LazyUUIDTask.modified self = (r, self', calls) → task_step self self'
| step_saved self r self' calls :
    LazyUUIDTask.saved self = (r, self', calls) → task_step self self'
| step_modified_fields self r self' calls :
    LazyUUIDTask._modified_fields self = (r, self', calls) → task_step self self'
| step_eq self other r self' other' calls :
    LazyUUIDTask.__eq__ (self, other) = (r, (self', other'), calls) → task_step self self'
| step_refresh self r self' calls :
    LazyUUIDTask.refresh self = (r, self', calls) → task_step self self'.

(** A computation keeps the identity of the task it runs on. *)
Definition keeps_identity {A} (m : M LazyUUIDTask.t A) : Prop :=
  ∀ self r self' calls,
    m self = (r, self', calls) →
    LazyUUIDTask.uuid self' = LazyUUIDTask.uuid self ∧
    LazyUUIDTask._tw self' = LazyUUIDTask._tw self.

(** The task constructed from [uuid], used any number of times. *)
Definition task_reachable (tw : TaskWarrior) (uuid : string) : LazyUUIDTask.t → Prop :=
  rtc task_step (LazyUUIDTask.__init__ tw uuid).

(** ** Record-like operands *)

(** [exposes obj u]: [obj] is record-like and its identifier is [u]. *)
Inductive exposes : LazyUUIDTask.pyobj → string → Prop :=
| exposes_task task u :
    task_data task !! "uuid" = Some u → exposes (LazyUUIDTask.OTask task) u
| exposes_lazy task :
    exposes (LazyUUIDTask.OLazy task) (LazyUUIDTask.uuid task).

(** [yields other ids]: [other] is an iterable of record-like values whose
    identifiers, as a set, are [ids]. *)
Inductive yields : LazyUUIDTaskSet.iterable → gset string → Prop :=
| yields_list l us :
    Forall2 exposes l us → yields (LazyUUIDTaskSet.PyList l) (list_to_set us)
| yields_set s :
    yields (LazyUUIDTaskSet.LazySet s) (LazyUUIDTaskSet._uuids s).

(** ** What a computation leaves alone *)

(** [quiet m]: whatever [m] returns or raises, it leaves the objects it runs
    on as they were and asks the backend nothing. *)
Definition quiet {S A} (m : M S A) : Prop :=
  ∀ s, ∃ r, m s = (r, s, []).

(** [ids_only m]: whatever [m] returns or raises on a lazy set and an
    operand, it asks the backend nothing, leaves the operand and the set's
    store handle as they were, and, when it raises, leaves the set as it
    was. *)
Definition ids_only {O A} (m : M (LazyUUIDTaskSet.t * O) A) : Prop :=
  ∀ self other, ∃ r self',
    m (self, other) = (r, (self', other), []) ∧
    LazyUUIDTaskSet._tw self' = LazyUUIDTaskSet._tw self ∧
    (∀ e, r = Raise e → self' = self).

(** [n] calls of [pop], one after the other, collecting what they return. *)
Fixpoint pops (n : nat) : M LazyUUIDTaskSet.t (list string) :=
  match n with
  | 0 => mret []
  | S n' =>
      u ← LazyUUIDTaskSet.pop;
      us ← pops n';
      mret (u :: us)
  end.

(** * Facts *)

Section monad_facts.
Context {S A : Type}.

Lemma for_each_pure (m : M S A) (f : S → A) (l : list S) :
  Forall (λ x, m x = (Ok (f x), x, [])) l →
  for_each m l = (Ok (f <$> l), l, []).
Proof.
  induction 1 as [|x xs Hx _ IH]; [done|].
  cbn [for_each]. by rewrite Hx, IH.
Qed.

Lemma for_each_related (m : M S A) (R : S → A → Prop) (l : list S) (rs : list A) :
  (∀ x r, R x r → m x = (Ok r, x, [])) →
  Forall2 R l rs →
  for_each m l = (Ok rs, l, []).
Proof.
  intros Hm. induction 1 as [|x r xs rs' Hx _ IH]; [done|].
  cbn [for_each]. by rewrite (Hm _ _ Hx), IH.
Qed.

End monad_facts.

Section task_facts.
Import LazyUUIDTask.

Lemma refresh_fetches (self : t) :
  refresh self =
    match tasks_get (_tw self) (uuid self) with
    | Ok task => (Ok tt, with_content (Some task) self, [Get (uuid self)])
    | Raise e => (Raise e, self, [Get (uuid self)])
    end.
Proof.
  unfold refresh, mbind, M_bind, get_self, backend_get; cbn.
  by destruct (tasks_get (_tw self) (uuid self)).
Qed.

Lemma getitem_uuid (self : t) :
  __getitem__ "uuid" self = (Ok (uuid self), self, []).
Proof. reflexivity. Qed.

Lemma subscript_exposes (obj : pyobj) (u : string) :
  exposes obj u → subscript "uuid" obj = (Ok u, obj, []).
Proof.
  destruct 1 as [task u Hu|task]; cbn.
  - unfold Task_getitem. by rewrite Hu.
  - done.
Qed.

(** The three flags fetch, then read the fetched record; a failed fetch is
    the failure of the accessor. *)
Lemma flag_fetches_then_reads (self : t) (name : string) (dflt : value)
    (accessor : M t value) :
  accessor = (refresh;; self ← get_self; mret (getattr_default (content self) name dflt)) →
  accessor self =
    match tasks_get (_tw self) (uuid self) with
    | Ok task =>
        (Ok (default dflt (task_attrs task !! name)),
         with_content (Some task) self, [Get (uuid self)])
    | Raise e => (Raise e, self, [Get (uuid self)])
    end.
Proof.
  intros ->. unfold mbind, M_bind at 1. rewrite refresh_fetches.
  by destruct (tasks_get (_tw self) (uuid self)).
Qed.

Lemma completed_fetches (self : t) :
  completed self =
    match tasks_get (_tw self) (uuid self) with
    | Ok task =>
        (Ok (default (VBool false) (task_attrs task !! "completed")),
         with_content (Some task) self, [Get (uuid self)])
    | Raise e => (Raise e, self, [Get (uuid self)])
    end.
Proof. by apply flag_fetches_then_reads. Qed.

Lemma modified_fetches (self : t) :
  modified self =
    match tasks_get (_tw self) (uuid self) with
    | Ok task =>
        (Ok (default (VBool false) (task_attrs task !! "modified")),
         with_content (Some task) self, [Get (uuid self)])
    | Raise e => (Raise e, self, [Get (uuid self)])
    end.
Proof. by apply flag_fetches_then_reads. Qed.

Lemma saved_fetches (self : t) :
  saved self =
    match tasks_get (_tw self) (uuid self) with
    | Ok task =>
        (Ok (default (VBool true) (task_attrs task !! "saved")),
         with_content (Some task) self, [Get (uuid self)])
    | Raise e => (Raise e, self, [Get (uuid self)])
    end.
Proof. by apply flag_fetches_then_reads. Qed.

(** [_modified_fields] reads whatever [content] holds and asks the backend
    nothing. *)
Lemma modified_fields_reads_content (self : t) :
  _modified_fields self =
    (Ok (getattr_default (content self) "_modified_fields" (VSet ∅)), self, []).
Proof. reflexivity. Qed.

(** *** The identifier and the store handle never change *)

Lemma keeps_ret {A} (a : A) : keeps_identity (mret a).
Proof. intros self r self' calls [= _ <- _]. done. Qed.

Lemma keeps_raise {A} (e : exn) : keeps_identity (raise (A := A) e).
Proof. intros self r self' calls [= _ <- _]. done. Qed.

Lemma keeps_lift {A} (x : result A) : keeps_identity (lift_result x).
Proof. intros self r self' calls [= _ <- _]. done. Qed.

Lemma keeps_get_self : keeps_identity get_self.
Proof. intros self r self' calls [= _ <- _]. done. Qed.

Lemma keeps_backend_get tw u : keeps_identity (backend_get tw u).
Proof. intros self r self' calls [= _ <- _]. done. Qed.

Lemma keeps_set_content c : keeps_identity (set_content c).
Proof. intros self r self' calls [= _ <- _]. done. Qed.

Lemma keeps_bind {A B} (m : M t A) (f : A → M t B) :
  keeps_identity m → (∀ a, keeps_identity (f a)) → keeps_identity (m ≫= f).
Proof.
  intros Hm Hf self r self' calls. unfold mbind, M_bind.
  destruct (m self) as [[[a|e] s1] c1] eqn:E1.
  - destruct (f a s1) as [[r2 s2] c2] eqn:E2. intros [= _ <- _].
    destruct (Hm _ _ _ _ E1) as [<- <-]. by apply (Hf a _ _ _ _ E2).
  - intros [= _ <- _]. by apply (Hm _ _ _ _ E1).
Qed.

Create HintDb keeps.
#[local] Hint Resolve keeps_ret keeps_raise keeps_lift keeps_get_self
  keeps_backend_get keeps_set_content : keeps.

Ltac keeps := repeat (first [ apply keeps_bind; [|intros ?] | solve [auto with keeps] ]).

Lemma keeps_refresh : keeps_identity refresh.
Proof. unfold refresh. keeps. Qed.

Lemma keeps_getitem key : keeps_identity (__getitem__ key).
Proof.
  unfold __getitem__. apply keeps_bind; [auto with keeps|intros self].
  destruct (String.eqb key "uuid"); [auto with keeps|].
  apply keeps_bind; [apply keeps_refresh|intros _].
  apply keeps_bind; [auto with keeps|intros self'].
  destruct (content self'); auto with keeps.
Qed.

Lemma keeps_flag name dflt :
  keeps_identity
    (refresh;; self ← get_self; mret (getattr_default (content self) name dflt)).
Proof. apply keeps_bind; [apply keeps_refresh|intros _]. keeps. Qed.

Lemma keeps_modified_fields : keeps_identity _modified_fields.
Proof. unfold _modified_fields. keeps. Qed.

Lemma eq_leaves_self (self self' : t) (other other' : pyobj) r calls :
  __eq__ (self, other) = (r, (self', other'), calls) → self' = self.
Proof.
  unfold __eq__, except_KeyError, mbind, M_bind, on_self, on_other.
  rewrite getitem_uuid.
  destruct (subscript "uuid" other) as [[[b|e] o1] c1]; cbn.
  - by intros [= _ <- _ _].
  - destruct e; cbn; by intros [= _ <- _ _].
Qed.

Lemma task_step_identity (self self' : t) :
  task_step self self' → uuid self' = uuid self ∧ _tw self' = _tw self.
Proof.
  destruct 1 as [key self r self' calls H|self r self' calls H|self r self' calls H
                |self r self' calls H|self r self' calls H
                |self other r self' other' calls H|self r self' calls H].
  - by apply (keeps_getitem key _ _ _ _ H).
  - by apply (keeps_flag _ _ _ _ _ _ H).
  - by apply (keeps_flag _ _ _ _ _ _ H).
  - by apply (keeps_flag _ _ _ _ _ _ H).
  - by apply (keeps_modified_fields _ _ _ _ H).
  - by rewrite (eq_leaves_self _ _ _ _ _ _ H).
  - by apply (keeps_refresh _ _ _ _ H).
Qed.

Lemma task_reachable_identity tw X (self : t) :
  task_reachable tw X self → uuid self = X ∧ _tw self = tw.
Proof.
  unfold task_reachable. revert self.
  apply rtc_ind_r; [done|].
  intros mid self _ Hstep IH.
  destruct (task_step_identity _ _ Hstep) as [-> ->]. exact IH.
Qed.

(** Equality with another lazy task is decided by the two identifiers,
    and asks the backend nothing. *)
Lemma eq_lazy_by_uuid (a b : t) :
  __eq__ (a, OLazy b) = (Ok (bool_decide (uuid a = uuid b)), (a, OLazy b), []).
Proof. reflexivity. Qed.

(** Equality with a materialized task: its [uuid] field decides, and a task
    without that field is just not equal. *)
Lemma eq_task_by_uuid (a : t) (task : Task) :
  __eq__ (a, OTask task) =
    (Ok (bool_decide (task_data task !! "uuid" = Some (uuid a))), (a, OTask task), []).
Proof.
  unfold __eq__, except_KeyError, mbind, M_bind, on_self, on_other.
  rewrite getitem_uuid. cbn. unfold Task_getitem.
  destruct (task_data task !! "uuid") as [u|] eqn:Hu; cbn.
  - do 2 f_equal. f_equal. apply bool_decide_ext. naive_solver.
  - by rewrite bool_decide_eq_false_2.
Qed.

(** An operand that cannot be subscripted: the [TypeError] is not caught. *)
Lemma eq_unsubscriptable (a : t) :
  __eq__ (a, ONone) = (Raise TypeError, (a, ONone), []).
Proof. reflexivity. Qed.

(** C7: two lazy tasks that wrap the same identifier are equal and have the
    same hash, whatever store each was built on and whether or not either
    holds fetched content; the comparison asks the backend nothing and
    changes neither task. *)
Theorem same_uuid_equal_and_same_hash (hash : string → Z) (a b : t) :
  uuid a = uuid b →
  __eq__ (a, OLazy b) = (Ok true, (a, OLazy b), []) ∧
  __hash__ hash a = __hash__ hash b.
Proof.
  intros Hab. split.
  - rewrite eq_lazy_by_uuid. by rewrite bool_decide_eq_true_2.
  - unfold __hash__. by rewrite Hab.
Qed.

Lemma same_uuid_equal_and_same_hash_witness :
  __eq__ (__init__ sample_tw "u1",
          OLazy (with_content (Some milk_task) (__init__ sample_tw "u1"))) =
    (Ok true,
     (__init__ sample_tw "u1",
      OLazy (with_content (Some milk_task) (__init__ sample_tw "u1"))), []) ∧
  __hash__ (λ s, Z.of_nat (String.length s)) (__init__ sample_tw "u1") =
  __hash__ (λ s, Z.of_nat (String.length s))
    (with_content (Some milk_task) (__init__ sample_tw "u1")).
Proof.
  apply (same_uuid_equal_and_same_hash (λ s, Z.of_nat (String.length s))
           (__init__ sample_tw "u1")
           (with_content (Some milk_task) (__init__ sample_tw "u1"))).
  reflexivity.
Defined.

(** C8: on a task constructed from identifier [X], however it has been used
    since (still lazy, or holding fetched content), looking up ["uuid"]
    returns [X], asks the backend nothing and leaves the task as it is. *)
Theorem uuid_lookup_without_backend (tw : TaskWarrior) (X : string) (self : t) :
  task_reachable tw X self →
  __getitem__ "uuid" self = (Ok X, self, []).
Proof.
  intros Hreach. rewrite getitem_uuid.
  by destruct (task_reachable_identity _ _ _ Hreach) as [-> _].
Qed.

Lemma fetched_task_reachable :
  task_reachable sample_tw "u1" (with_content (Some milk_task) (__init__ sample_tw "u1")).
Proof.
  eapply rtc_r; [apply rtc_refl|].
  by apply (step_completed _ (Ok (VBool true)) _ [Get "u1"]).
Qed.

Lemma uuid_lookup_without_backend_witness :
  __getitem__ "uuid" (with_content (Some milk_task) (__init__ sample_tw "u1")) =
    (Ok "u1", with_content (Some milk_task) (__init__ sample_tw "u1"), []).
Proof.
  apply (uuid_lookup_without_backend sample_tw "u1").
  exact fetched_task_reachable.
Defined.

(** C1: the accessor [_modified_fields] of a lazy task never fetched. The
    store holds task [u1] with a pending change to its description, yet the
    accessor answers the empty set, sends nothing to the backend and leaves
    [content] empty; fetching first, as [completed], [modified] and [saved]
    do, would have answered the stored set after one [Get]. *)
Theorem modified_fields_skips_the_fetch :
  tasks_get sample_tw "u1" = Ok milk_task ∧
  task_attrs milk_task !! "_modified_fields" = Some (VSet {[ "description" ]}) ∧
  _modified_fields (__init__ sample_tw "u1") =
    (Ok (VSet ∅), __init__ sample_tw "u1", []) ∧
  (refresh;; _modified_fields) (__init__ sample_tw "u1") =
    (Ok (VSet {[ "description" ]}),
     with_content (Some milk_task) (__init__ sample_tw "u1"), [Get "u1"]) ∧
  completed (__init__ sample_tw "u1") =
    (Ok (VBool true),
     with_content (Some milk_task) (__init__ sample_tw "u1"), [Get "u1"]).
Proof. repeat split. Qed.

End task_facts.

Section set_facts.
Import LazyUUIDTaskSet.

Lemma init_of_elements (tw : TaskWarrior) (ids : gset string) :
  __init__ tw (elements ids) = {| _tw := tw; _uuids := ids |}.
Proof. unfold __init__. by rewrite list_to_set_elements_L. Qed.

(** Iterating a lazy set and reading ["uuid"] off every yielded task gives
    back the stored identifiers: no task is fetched. *)
Lemma iter_then_uuid (tw : TaskWarrior) (us : list string) :
  for_each (LazyUUIDTask.__getitem__ "uuid") (LazyUUIDTask.__init__ tw <$> us) =
    (Ok us, LazyUUIDTask.__init__ tw <$> us, []).
Proof.
  rewrite (for_each_pure _ LazyUUIDTask.uuid).
  - rewrite <- list_fmap_compose. by rewrite list_fmap_id.
  - apply Forall_forall. intros task _. apply getitem_uuid.
Qed.

Lemma uuids_of_yields (other : iterable) (ids : gset string) :
  yields other ids → uuids_of other = (Ok ids, other, []).
Proof.
  destruct 1 as [l us Hl|s]; unfold uuids_of.
  - by rewrite (for_each_related _ exposes l us subscript_exposes Hl).
  - change (__iter__ s)
      with (Ok (LazyUUIDTask.__init__ (_tw s) <$> elements (_uuids s)), s, @nil call).
    cbv beta iota zeta. rewrite iter_then_uuid. cbn. by rewrite list_to_set_elements_L.
Qed.

(** The shape shared by [union], [intersection], [difference] and
    [symmetric_difference]. *)
Lemma algebra_on_identifiers (op : gset string → gset string → gset string)
    (self : t) (other : iterable) (ids : gset string) :
  yields other ids →
  (self ← on_self get_self;
   ids ← on_other uuids_of;
   mret (__init__ (_tw self) (elements (op (_uuids self) ids)))) (self, other) =
    (Ok (with_uuids (op (_uuids self) ids) self), (self, other), []).
Proof.
  intros Hy. unfold mbind, M_bind, on_self, on_other, get_self; cbn.
  rewrite (uuids_of_yields _ _ Hy); cbn. by rewrite init_of_elements.
Qed.

Lemma elem_of_symmetric (a b : gset string) (x : string) :
  x ∈ symmetric a b ↔ (x ∈ a ∧ x ∉ b) ∨ (x ∈ b ∧ x ∉ a).
Proof. unfold symmetric. set_solver. Qed.

(** C5: on lazy sets [A] and [B], [union], [intersection], [difference] and
    [symmetric_difference] return a lazy set on [A]'s store whose
    identifiers are the union, the intersection, the difference and the
    symmetric difference of the two identifier sets; [A] and [B] are left as
    they were and the backend is asked nothing. *)
Theorem set_algebra_on_identifiers (A B : t) :
  union (A, LazySet B) =
    (Ok {| _tw := _tw A; _uuids := _uuids A ∪ _uuids B |}, (A, LazySet B), []) ∧
  intersection (A, LazySet B) =
    (Ok {| _tw := _tw A; _uuids := _uuids A ∩ _uuids B |}, (A, LazySet B), []) ∧
  difference (A, LazySet B) =
    (Ok {| _tw := _tw A; _uuids := _uuids A ∖ _uuids B |}, (A, LazySet B), []) ∧
  (∃ ids,
     symmetric_difference (A, LazySet B) =
       (Ok {| _tw := _tw A; _uuids := ids |}, (A, LazySet B), []) ∧
     ∀ x, x ∈ ids ↔ (x ∈ _uuids A ∧ x ∉ _uuids B) ∨ (x ∈ _uuids B ∧ x ∉ _uuids A)).
Proof.
  pose proof (yields_set B) as HB. split_and!.
  - exact (algebra_on_identifiers (∪) A _ _ HB).
  - exact (algebra_on_identifiers (∩) A _ _ HB).
  - exact (algebra_on_identifiers (∖) A _ _ HB).
  - exists (symmetric (_uuids A) (_uuids B)). split.
    + exact (algebra_on_identifiers symmetric A _ _ HB).
    + apply elem_of_symmetric.
Qed.

(** C6: for an iterable [other] of record-like values with identifiers
    [ids], the reversed subtraction [other - self] is a lazy set holding
    [ids] minus the identifiers of [self]; nothing is fetched and neither
    operand changes. *)
Theorem rsub_is_other_minus_self (self : t) (other : iterable) (ids : gset string) :
  yields other ids →
  __rsub__ (self, other) =
    (Ok {| _tw := _tw self; _uuids := ids ∖ _uuids self |}, (self, other), []).
Proof.
  intros Hy. unfold __rsub__, mbind, M_bind, on_self, on_other, get_self; cbn.
  rewrite (uuids_of_yields _ _ Hy); cbn. by rewrite init_of_elements.
Qed.

Lemma rsub_is_other_minus_self_witness :
  __rsub__ (__init__ sample_tw ["u1"; "u2"],
            PyList [LazyUUIDTask.OTask milk_task;
                    LazyUUIDTask.OLazy (LazyUUIDTask.__init__ sample_tw "u9")]) =
    (Ok {| _tw := sample_tw;
           _uuids := list_to_set ["u1"; "u9"] ∖ _uuids (__init__ sample_tw ["u1"; "u2"]) |},
     (__init__ sample_tw ["u1"; "u2"],
      PyList [LazyUUIDTask.OTask milk_task;
              LazyUUIDTask.OLazy (LazyUUIDTask.__init__ sample_tw "u9")]), []).
Proof.
  apply (rsub_is_other_minus_self (__init__ sample_tw ["u1"; "u2"])).
  apply yields_list.
  repeat constructor.
Defined.

(** On that input the two orders of subtraction differ: [other - self] is
    [{u9}], [self - other] is [{u2}]. *)
Example rsub_is_not_sub :
  result_map _uuids
    (__rsub__ (__init__ sample_tw ["u1"; "u2"],
               PyList [LazyUUIDTask.OTask milk_task;
                       LazyUUIDTask.OLazy (LazyUUIDTask.__init__ sample_tw "u9")])).1.1
    = Ok {[ "u9" ]} ∧
  result_map _uuids
    (__sub__ (__init__ sample_tw ["u1"; "u2"],
              PyList [LazyUUIDTask.OTask milk_task;
                      LazyUUIDTask.OLazy (LazyUUIDTask.__init__ sample_tw "u9")])).1.1
    = Ok {[ "u2" ]}.
Proof. split; reflexivity. Qed.

Lemma remove_by_membership (self : t) (task : pyobj) (u : string) :
  exposes task u →
  remove (self, task) =
    if bool_decide (u ∈ _uuids self)
    then (Ok tt, (with_uuids (_uuids self ∖ {[u]}) self, task), [])
    else (Raise (KeyError u), (self, task), []).
Proof.
  intros Hu. unfold remove, mbind, M_bind, on_self, on_other, get_self; cbn.
  rewrite (subscript_exposes _ _ Hu); cbn.
  by destruct (bool_decide (u ∈ _uuids self)).
Qed.

Lemma pop_by_order (self : t) :
  pop self =
    match elements (_uuids self) with
    | [] => (Raise (KeyError "pop from an empty set"), self, [])
    | u :: _ => (Ok u, with_uuids (_uuids self ∖ {[u]}) self, [])
    end.
Proof.
  unfold pop, mbind, M_bind, get_self; cbn.
  by destruct (elements (_uuids self)).
Qed.

(** C9: [remove] of a record-like value whose identifier is not stored
    raises [KeyError] (the spec's NotFound) and [pop] on an empty identifier
    set raises [KeyError] (the spec's EmptyCollection), each leaving the set
    as it was; otherwise [remove] drops that identifier and [pop] drops and
    returns a stored one. The store handle is never touched and the backend
    is asked nothing. *)
Theorem remove_and_pop (self : t) :
  (∀ task u, exposes task u → u ∉ _uuids self →
     remove (self, task) = (Raise (KeyError u), (self, task), [])) ∧
  (∀ task u, exposes task u → u ∈ _uuids self →
     remove (self, task) =
       (Ok tt, ({| _tw := _tw self; _uuids := _uuids self ∖ {[u]} |}, task), [])) ∧
  (_uuids self = ∅ →
     pop self = (Raise (KeyError "pop from an empty set"), self, [])) ∧
  (_uuids self ≠ ∅ →
     ∃ u, u ∈ _uuids self ∧
       pop self = (Ok u, {| _tw := _tw self; _uuids := _uuids self ∖ {[u]} |}, [])).
Proof.
  split_and!.
  - intros task u Hu Hnot. rewrite (remove_by_membership _ _ _ Hu).
    by rewrite bool_decide_eq_false_2.
  - intros task u Hu Hin. rewrite (remove_by_membership _ _ _ Hu).
    by rewrite bool_decide_eq_true_2.
  - intros Hempty. rewrite pop_by_order, Hempty. by rewrite elements_empty.
  - intros Hne. rewrite pop_by_order.
    destruct (elements (_uuids self)) as [|u rest] eqn:Hel.
    + apply elements_empty_inv in Hel. by apply leibniz_equiv in Hel.
    + exists u. split; [|done].
      apply elem_of_elements. rewrite Hel. apply list_elem_of_here.
Qed.

Lemma list_to_set_remove_dups_L (l : list string) :
  list_to_set (remove_dups l) =@{gset string} list_to_set l.
Proof.
  apply set_eq. intros x.
  by rewrite !elem_of_list_to_set, elem_of_remove_dups.
Qed.

(** C10: a set constructed from any list of identifiers, repeats included,
    holds each distinct identifier once: its length is the number of distinct
    identifiers, a record-like value is contained exactly when its identifier
    occurs in the list, and iteration yields one lazy task per distinct
    identifier, in some order. None of this reaches the backend. *)
Theorem init_deduplicates (tw : TaskWarrior) (uuids : list string) :
  __len__ (__init__ tw uuids) =
    (Ok (length (remove_dups uuids)), __init__ tw uuids, []) ∧
  (∀ task u, exposes task u →
     __contains__ (__init__ tw uuids, task) =
       (Ok (bool_decide (u ∈ uuids)), (__init__ tw uuids, task), [])) ∧
  (∃ order, order ≡ₚ remove_dups uuids ∧
     __iter__ (__init__ tw uuids) =
       (Ok (LazyUUIDTask.__init__ tw <$> order), __init__ tw uuids, [])).
Proof.
  split_and!.
  - unfold __len__, mbind, M_bind, get_self; cbn.
    rewrite <- list_to_set_remove_dups_L.
    rewrite size_list_to_set; [done|apply NoDup_remove_dups].
  - intros task u Hu.
    unfold __contains__, mbind, M_bind, on_self, on_other, get_self; cbn.
    rewrite (subscript_exposes _ _ Hu); cbn.
    do 2 f_equal. f_equal. apply bool_decide_ext, elem_of_list_to_set.
  - exists (elements (_uuids (__init__ tw uuids))). split; [|done].
    cbn. rewrite <- list_to_set_remove_dups_L.
    apply elements_list_to_set, NoDup_remove_dups.
Qed.

Example init_deduplicates_sample :
  (__len__ (__init__ sample_tw ["u1"; "u2"; "u1"])).1.1 = Ok 2 ∧
  (__iter__ (__init__ sample_tw ["u1"; "u2"; "u1"])).1.1 =
    Ok [LazyUUIDTask.__init__ sample_tw "u1"; LazyUUIDTask.__init__ sample_tw "u2"].
Proof. split; reflexivity. Qed.

(** On success [refresh] has always swapped the class: the branch of
    [__getattr__] that would recurse is dead. *)
Lemma refresh_swaps (self : t) (obj : object) (calls : list call) :
  refresh self = (Ok tt, obj, calls) → ∃ qs, obj = Swapped qs.
Proof.
  unfold refresh. destruct (tasks_filter _ _) as [qs|e]; [|done].
  intros [= <- _]. by exists qs.
Qed.

(** [__getattr__] satisfies the equation the source states: refuse a dunder
    name, else [refresh] and look the name up on what [self] has become. *)
Lemma getattr_unfold (normal : t → string → option value) (self : t) (name : string) :
  __getattr__ name self =
    if String.prefix "__" name then (Raise AttributeError, Lazy self, [])
    else
      match refresh self with
      | (Ok _, obj, calls) =>
          let '(r, obj', calls') := getattr normal name obj in
          (r, obj', calls ++ calls')
      | (Raise e, obj, calls) => (Raise e, obj, calls)
      end.
Proof.
  unfold __getattr__. destruct (String.prefix "__" name); [done|].
  unfold refresh. destruct (tasks_filter _ _) as [qs|e]; done.
Qed.

(** C3: looking up, on a lazy set, a name that is not a dunder name and that
    the class does not define sends the backend exactly one [filter], whose
    query is the stored identifiers, each once, in some order, joined by one
    space. When the backend answers, the object is from then on the returned
    collection: the lookup itself and every later one are answered by that
    collection, with no further call; when the backend fails, the failure is
    raised and the set is still lazy. *)
Theorem getattr_materializes_once (self : t) (name : string) :
  String.prefix "__" name = false →
  ∃ order,
    NoDup order ∧ (∀ u, u ∈ order ↔ u ∈ _uuids self) ∧
    match tasks_filter (_tw self) (join " " order) with
    | Ok qs =>
        __getattr__ name self =
          (TaskQuerySet_getattr qs name, Swapped qs, [Filter (join " " order)]) ∧
        ∀ normal name', getattr normal name' (Swapped qs) =
                          (TaskQuerySet_getattr qs name', Swapped qs, [])
    | Raise e =>
        __getattr__ name self = (Raise e, Lazy self, [Filter (join " " order)])
    end.
Proof.
  intros Hname. exists (elements (_uuids self)). split_and!.
  - apply NoDup_elements.
  - intros u. apply elem_of_elements.
  - unfold __getattr__, refresh. rewrite Hname.
    destruct (tasks_filter _ _) as [qs|e]; [split|]; done.
Qed.

Lemma getattr_materializes_once_witness :
  ∃ order,
    NoDup order ∧ (∀ u, u ∈ order ↔ u ∈ _uuids (__init__ sample_tw ["u1"; "u2"])) ∧
    match tasks_filter (_tw (__init__ sample_tw ["u1"; "u2"])) (join " " order) with
    | Ok qs =>
        __getattr__ "count" (__init__ sample_tw ["u1"; "u2"]) =
          (TaskQuerySet_getattr qs "count", Swapped qs, [Filter (join " " order)]) ∧
        ∀ normal name', getattr normal name' (Swapped qs) =
                          (TaskQuerySet_getattr qs name', Swapped qs, [])
    | Raise e =>
        __getattr__ "count" (__init__ sample_tw ["u1"; "u2"]) =
          (Raise e, Lazy (__init__ sample_tw ["u1"; "u2"]), [Filter (join " " order)])
    end.
Proof.
  apply (getattr_materializes_once (__init__ sample_tw ["u1"; "u2"]) "count").
  reflexivity.
Defined.

Example getattr_sample :
  __getattr__ "count" (__init__ sample_tw ["u1"; "u2"]) =
    (Ok (VStr "2"), Swapped found_tasks, [Filter "u1 u2"]).
Proof. reflexivity. Qed.

(** A name found by normal means is answered from the instance: the
    fallback is not called, nothing is fetched and the set stays lazy. *)
Lemma getattr_found (normal : t → string → option value) (self : t)
    (name : string) (v : value) :
  normal self name = Some v →
  getattr normal name (Lazy self) = (Ok v, Lazy self, []).
Proof. intros Hfound. unfold getattr. by rewrite Hfound. Qed.

(** C4: for a name that starts with two underscores, the fallback
    [__getattr__] raises [AttributeError] at once: no query is built, the
    backend is asked nothing and the set stays the lazy set it was. So a
    lookup of such a name on a lazy set never materializes it, whether
    normal lookup finds the name (a dunder method the class defines, as
    [__len__]) or not; and when normal lookup does not find it, the lookup
    fails with [AttributeError]. *)
Theorem dunder_lookup_fails_cleanly (self : t) (name : string) :
  String.prefix "__" name = true →
  __getattr__ name self = (Raise AttributeError, Lazy self, []) ∧
  (∀ normal : t → string → option value,
     (∃ r, getattr normal name (Lazy self) = (r, Lazy self, [])) ∧
     (normal self name = None →
      getattr normal name (Lazy self) = (Raise AttributeError, Lazy self, []))).
Proof.
  intros Hname.
  assert (__getattr__ name self = (Raise AttributeError, Lazy self, [])) as Hfallback.
  { unfold __getattr__. by rewrite Hname. }
  split; [done|]. intros normal. unfold getattr. split.
  - destruct (normal self name) as [v|]; [by exists (Ok v)|].
    rewrite Hfallback. by eexists.
  - by intros ->.
Qed.

Lemma dunder_lookup_fails_cleanly_witness :
  __getattr__ "__deepcopy__" (__init__ sample_tw ["u1"; "u2"]) =
    (Raise AttributeError, Lazy (__init__ sample_tw ["u1"; "u2"]), []) ∧
  (∀ normal : t → string → option value,
     (∃ r, getattr normal "__deepcopy__" (Lazy (__init__ sample_tw ["u1"; "u2"])) =
             (r, Lazy (__init__ sample_tw ["u1"; "u2"]), [])) ∧
     (normal (__init__ sample_tw ["u1"; "u2"]) "__deepcopy__" = None →
      getattr normal "__deepcopy__" (Lazy (__init__ sample_tw ["u1"; "u2"])) =
        (Raise AttributeError, Lazy (__init__ sample_tw ["u1"; "u2"]), []))).
Proof.
  apply (dunder_lookup_fails_cleanly (__init__ sample_tw ["u1"; "u2"]) "__deepcopy__").
  reflexivity.
Defined.

End set_facts.

Section equality_facts.
Import LazyUUIDTask.

(** The extraction loop stops at the first element that gives no
    identifier, with that element's exception. *)
Lemma for_each_stops (l : list pyobj) (us : list string) (obj : pyobj)
    (rest : list pyobj) (e : exn) :
  Forall2 exposes l us →
  subscript "uuid" obj = (Raise e, obj, []) →
  for_each (subscript "uuid") (l ++ obj :: rest) = (Raise e, l ++ obj :: rest, []).
Proof.
  intros Hl Hobj. induction Hl as [|x u xs us' Hx _ IH]; cbn [for_each app].
  - by rewrite Hobj.
  - by rewrite (subscript_exposes _ _ Hx), IH.
Qed.

(** Set equality is the extraction followed by the comparison; nothing is
    caught on the way. *)
Lemma set_eq_follows_extraction (self : LazyUUIDTaskSet.t)
    (other : LazyUUIDTaskSet.iterable) :
  LazyUUIDTaskSet.__eq__ (self, other) =
    match LazyUUIDTaskSet.uuids_of other with
    | (Ok ids, other', calls) =>
        (Ok (bool_decide (ids = LazyUUIDTaskSet._uuids self)), (self, other'), calls)
    | (Raise e, other', calls) => (Raise e, (self, other'), calls)
    end.
Proof.
  unfold LazyUUIDTaskSet.__eq__, mbind, M_bind, on_self, on_other, get_self.
  destruct (LazyUUIDTaskSet.uuids_of other) as [[[ids|e] other'] calls]; cbn; [|done].
  by rewrite app_nil_r.
Qed.

(** C2, as the code has it. Task equality catches [KeyError] only: against
    a task without a [uuid] field it is false, against a record-like operand
    it compares the identifiers, and against an operand that cannot be
    subscripted the [TypeError] reaches the caller. Set equality catches
    nothing: it compares the identifier sets when every element of the
    operand exposes an identifier, and otherwise raises what the extraction
    raised ([KeyError] for an element without [uuid], [TypeError] for an
    element that cannot be subscripted or an operand that cannot be
    iterated). No case reaches the backend or changes an operand. *)
Theorem equality_catches_only_KeyError :
  (∀ (self : t) (other : pyobj),
     __eq__ (self, other) =
       (match other with
        | ONone => Raise TypeError
        | OTask task => Ok (bool_decide (task_data task !! "uuid" = Some (uuid self)))
        | OLazy task => Ok (bool_decide (uuid self = uuid task))
        end, (self, other), [])) ∧
  (∀ (self : LazyUUIDTaskSet.t) other ids,
     yields other ids →
     LazyUUIDTaskSet.__eq__ (self, other) =
       (Ok (bool_decide (ids = LazyUUIDTaskSet._uuids self)), (self, other), [])) ∧
  (∀ (self : LazyUUIDTaskSet.t) l us task rest,
     Forall2 exposes l us →
     task_data task !! "uuid" = None →
     LazyUUIDTaskSet.__eq__ (self, LazyUUIDTaskSet.PyList (l ++ OTask task :: rest)) =
       (Raise (KeyError "uuid"),
        (self, LazyUUIDTaskSet.PyList (l ++ OTask task :: rest)), [])) ∧
  (∀ (self : LazyUUIDTaskSet.t) l us rest,
     Forall2 exposes l us →
     LazyUUIDTaskSet.__eq__ (self, LazyUUIDTaskSet.PyList (l ++ ONone :: rest)) =
       (Raise TypeError, (self, LazyUUIDTaskSet.PyList (l ++ ONone :: rest)), [])) ∧
  (∀ (self : LazyUUIDTaskSet.t),
     LazyUUIDTaskSet.__eq__ (self, LazyUUIDTaskSet.NotIterable) =
       (Raise TypeError, (self, LazyUUIDTaskSet.NotIterable), [])).
Proof.
  split_and!.
  - intros self [|task|task].
    + apply eq_unsubscriptable.
    + apply eq_task_by_uuid.
    + apply eq_lazy_by_uuid.
  - intros self other ids Hy.
    by rewrite set_eq_follows_extraction, (uuids_of_yields _ _ Hy).
  - intros self l us task rest Hl Hnone.
    rewrite set_eq_follows_extraction. unfold LazyUUIDTaskSet.uuids_of.
    rewrite (for_each_stops l us _ rest (KeyError "uuid") Hl); [done|].
    cbn. unfold Task_getitem. by rewrite Hnone.
  - intros self l us rest Hl.
    rewrite set_eq_follows_extraction. unfold LazyUUIDTaskSet.uuids_of.
    by rewrite (for_each_stops l us _ rest TypeError Hl).
  - done.
Qed.

(** C2 as stated fails: comparing a lazy set with a collection holding a
    record that has no [uuid] field raises [KeyError], and comparing a lazy
    task with [None] raises [TypeError]. *)
Lemma equality_can_raise :
  LazyUUIDTaskSet.__eq__
    (LazyUUIDTaskSet.__init__ sample_tw ["u1"],
     LazyUUIDTaskSet.PyList [OTask bare_task]) =
    (Raise (KeyError "uuid"),
     (LazyUUIDTaskSet.__init__ sample_tw ["u1"],
      LazyUUIDTaskSet.PyList [OTask bare_task]), []) ∧
  __eq__ (__init__ sample_tw "u1", ONone) =
    (Raise TypeError, (__init__ sample_tw "u1", ONone), []).
Proof. split; reflexivity. Qed.

End equality_facts.

(** * Further facts: the lazy task *)

Section task_more.
Import LazyUUIDTask.

(** X1: a lookup of any field other than ["uuid"] asks the backend for the
    task, once, also when [content] is already there. When the backend
    answers, [content] becomes the answer and the field is read from it
    ([KeyError] when the fetched task has no such field); when the backend
    fails, its exception is raised and [content] is what it was before. *)
Theorem getitem_fetches_then_subscripts (self : t) (key : string) :
  key ≠ "uuid" →
  __getitem__ key self =
    match tasks_get (_tw self) (uuid self) with
    | Ok task =>
        (Task_getitem task key, with_content (Some task) self, [Get (uuid self)])
    | Raise e => (Raise e, self, [Get (uuid self)])
    end.
Proof.
  intros Hkey. apply String.eqb_neq in Hkey.
  unfold __getitem__, mbind, M_bind at 1 2. unfold get_self at 1.
  rewrite Hkey, refresh_fetches.
  by destruct (tasks_get (_tw self) (uuid self)).
Qed.

Lemma getitem_fetches_then_subscripts_witness :
  __getitem__ "description" (__init__ sample_tw "u1") =
    match tasks_get (_tw (__init__ sample_tw "u1")) (uuid (__init__ sample_tw "u1")) with
    | Ok task =>
        (Task_getitem task "description",
         with_content (Some task) (__init__ sample_tw "u1"),
         [Get (uuid (__init__ sample_tw "u1"))])
    | Raise e =>
        (Raise e, __init__ sample_tw "u1", [Get (uuid (__init__ sample_tw "u1"))])
    end.
Proof.
  apply (getitem_fetches_then_subscripts (__init__ sample_tw "u1") "description").
  discriminate.
Defined.

(** X2: [completed], [modified] and [saved] fetch on every read, whatever
    [content] holds: one [get] for the task's identifier. On success
    [content] is replaced by the fetched task and the flag is the task's
    property, or [False], [False], [True] when the task has none; on failure
    the backend's exception is raised and [content] is kept. *)
Theorem flags_fetch_on_every_read (self : t) :
  completed self =
    match tasks_get (_tw self) (uuid self) with
    | Ok task =>
        (Ok (default (VBool false) (task_attrs task !! "completed")),
         with_content (Some task) self, [Get (uuid self)])
    | Raise e => (Raise e, self, [Get (uuid self)])
    end ∧
  modified self =
    match tasks_get (_tw self) (uuid self) with
    | Ok task =>
        (Ok (default (VBool false) (task_attrs task !! "modified")),
         with_content (Some task) self, [Get (uuid self)])
    | Raise e => (Raise e, self, [Get (uuid self)])
    end ∧
  saved self =
    match tasks_get (_tw self) (uuid self) with
    | Ok task =>
        (Ok (default (VBool true) (task_attrs task !! "saved")),
         with_content (Some task) self, [Get (uuid self)])
    | Raise e => (Raise e, self, [Get (uuid self)])
    end.
Proof.
  split_and!; [apply completed_fetches|apply modified_fetches|apply saved_fetches].
Qed.

(** X3: the hash of a task never changes: after any sequence of lookups,
    flag reads, comparisons and refreshes, successful or not, it is still
    the hash of the identifier the task was constructed from. *)
Theorem hash_is_stable (hash : string → Z) (tw : TaskWarrior) (X : string) (self : t) :
  task_reachable tw X self →
  __hash__ hash self = hash X.
Proof.
  intros Hreach. unfold __hash__.
  by destruct (task_reachable_identity _ _ _ Hreach) as [-> _].
Qed.

Lemma hash_is_stable_witness :
  __hash__ (λ s, Z.of_nat (String.length s))
    (with_content (Some milk_task) (__init__ sample_tw "u1")) = 2%Z.
Proof.
  apply (hash_is_stable (λ s, Z.of_nat (String.length s)) sample_tw "u1").
  exact fetched_task_reachable.
Defined.

(** X4: equality between lazy tasks is an equivalence: every task equals
    itself, [a == b] and [b == a] give the same answer, and equality is
    transitive. *)
Theorem task_equality_is_an_equivalence (a b c : t) :
  (__eq__ (a, OLazy a)).1.1 = Ok true ∧
  (__eq__ (a, OLazy b)).1.1 = (__eq__ (b, OLazy a)).1.1 ∧
  ((__eq__ (a, OLazy b)).1.1 = Ok true →
   (__eq__ (b, OLazy c)).1.1 = Ok true →
   (__eq__ (a, OLazy c)).1.1 = Ok true).
Proof.
  rewrite !eq_lazy_by_uuid. cbn [fst]. split_and!.
  - by rewrite bool_decide_eq_true_2.
  - f_equal. apply bool_decide_ext. naive_solver.
  - intros [= Hab%bool_decide_eq_true] [= Hbc%bool_decide_eq_true].
    rewrite bool_decide_eq_true_2; congruence.
Qed.

End task_more.

(** * Further facts: the lazy set *)

Section set_more.
Import LazyUUIDTaskSet.

(** Reading ["uuid"] off any object, record-like or not, is quiet. *)
Lemma subscript_uuid_quiet : quiet (LazyUUIDTask.subscript "uuid").
Proof. intros [|task|task]; cbn; eauto. Qed.

Lemma for_each_quiet {S A} (m : M S A) : quiet m → quiet (for_each m).
Proof.
  intros Hm l. induction l as [|x xs [r IH]]; [by eexists|].
  cbn [for_each]. destruct (Hm x) as [[a|e] ->]; [|by eexists].
  rewrite IH. destruct r; by eexists.
Qed.

Lemma uuids_of_quiet : quiet uuids_of.
Proof.
  intros [|l|s]; unfold uuids_of.
  - by eexists.
  - destruct (for_each_quiet _ subscript_uuid_quiet l) as [r ->]. by eexists.
  - change (__iter__ s)
      with (Ok (LazyUUIDTask.__init__ (_tw s) <$> elements (_uuids s)), s, @nil call).
    cbv beta iota zeta. rewrite iter_then_uuid. by eexists.
Qed.

(** The shape of the pure binary operations, on any operand. *)
Lemma binary_quiet {A} (f : t → gset string → A) :
  quiet (self ← on_self get_self; ids ← on_other uuids_of; mret (f self ids)).
Proof.
  intros [self other]. unfold mbind, M_bind, on_self, on_other, get_self.
  destruct (uuids_of_quiet other) as [[ids|e] ->]; by eexists.
Qed.

Lemma binary_quiet_rev {A} (f : t → gset string → A) :
  quiet (ids ← on_other uuids_of; self ← on_self get_self; mret (f self ids)).
Proof.
  intros [self other]. unfold mbind, M_bind, on_self, on_other, get_self.
  destruct (uuids_of_quiet other) as [[ids|e] ->]; by eexists.
Qed.

Lemma contains_quiet : quiet __contains__.
Proof.
  intros [self task]. unfold __contains__, mbind, M_bind, on_self, on_other, get_self.
  destruct (subscript_uuid_quiet task) as [[u|e] ->]; by eexists.
Qed.

Lemma contains_each_quiet (self : t) (l : list pyobj) :
  ∃ r, contains_each self l = (r, (self, l), []).
Proof.
  induction l as [|task rest [r IH]]; [by eexists|].
  cbn [contains_each]. destruct (contains_quiet (self, task)) as [[b|e] ->]; [|by eexists].
  rewrite IH. destruct r; by eexists.
Qed.

Lemma issuperset_quiet : quiet issuperset.
Proof.
  intros [self [|l|s]]; unfold issuperset.
  - by eexists.
  - destruct (contains_each_quiet self l) as [r ->]. by eexists.
  - change (__iter__ s)
      with (Ok (LazyUUIDTask.__init__ (_tw s) <$> elements (_uuids s)), s, @nil call).
    cbv beta iota zeta.
    destruct (contains_each_quiet self
                (LazyUUIDTask.OLazy <$> (LazyUUIDTask.__init__ (_tw s) <$> elements (_uuids s))))
      as [r ->].
    by eexists.
Qed.

(** X5: the operations that only read identifiers ([union],
    [intersection], [difference], [symmetric_difference], [__rsub__],
    [__eq__], [__ne__], [__contains__], [issuperset], [__len__], [__iter__])
    never reach the backend and never change the set or the operand, on any
    operand at all, also one that makes them raise. *)
Theorem reading_operations_are_quiet :
  quiet union ∧ quiet intersection ∧ quiet difference ∧
  quiet symmetric_difference ∧ quiet __rsub__ ∧
  quiet __eq__ ∧ quiet __ne__ ∧ quiet __contains__ ∧ quiet issuperset ∧
  quiet __len__ ∧ quiet __iter__.
Proof.
  split_and!.
  - apply (binary_quiet (λ self ids, __init__ (_tw self) (elements (_uuids self ∪ ids)))).
  - apply (binary_quiet (λ self ids, __init__ (_tw self) (elements (_uuids self ∩ ids)))).
  - apply (binary_quiet (λ self ids, __init__ (_tw self) (elements (_uuids self ∖ ids)))).
  - apply (binary_quiet
             (λ self ids, __init__ (_tw self) (elements (symmetric (_uuids self) ids)))).
  - apply (binary_quiet_rev
             (λ self ids, __init__ (_tw self) (elements (ids ∖ _uuids self)))).
  - apply (binary_quiet_rev (λ self ids, bool_decide (ids = _uuids self))).
  - intros s. unfold __ne__, mbind, M_bind at 1.
    destruct (binary_quiet_rev (λ self ids, bool_decide (ids = _uuids self)) s)
      as [[b|e] Hr]; unfold __eq__; rewrite Hr; by eexists.
  - apply contains_quiet.
  - apply issuperset_quiet.
  - intros self. by eexists.
  - intros self. by eexists.
Qed.

(** The shape of the in-place binary operations, on any operand. *)
Lemma inplace_ids_only (op : gset string → gset string → gset string) :
  ids_only
    (self ← on_self get_self;
     ids ← on_other uuids_of;
     on_self (set_uuids (op (_uuids self) ids));;
     on_self get_self).
Proof.
  intros self other. unfold mbind, M_bind, on_self, on_other, get_self, set_uuids.
  destruct (uuids_of_quiet other) as [[ids|e] ->].
  - eexists _, _. split_and!; [done|done|done].
  - eexists _, _. split_and!; [done|done|done].
Qed.

(** X6: the operations that change the set ([update],
    [intersection_update], [difference_update],
    [symmetric_difference_update], [add], [remove], [pop], [clear]) change
    nothing but its identifiers: on any operand they ask the backend
    nothing, leave the operand and the store handle alone, and when they
    raise, the identifiers are as before. *)
Theorem mutations_touch_identifiers_only :
  ids_only update ∧ ids_only intersection_update ∧ ids_only difference_update ∧
  ids_only symmetric_difference_update ∧ ids_only add ∧ ids_only remove ∧
  (∀ self, ∃ r self',
     pop self = (r, self', []) ∧ _tw self' = _tw self ∧ (∀ e, r = Raise e → self' = self)) ∧
  (∀ self, clear self = (Ok tt, {| _tw := _tw self; _uuids := ∅ |}, [])).
Proof.
  split_and!.
  - apply (inplace_ids_only (∪)).
  - apply (inplace_ids_only (∩)).
  - apply (inplace_ids_only (∖)).
  - apply (inplace_ids_only symmetric).
  - intros self task. unfold add, mbind, M_bind, on_self, on_other, get_self, set_uuids.
    destruct (subscript_uuid_quiet task) as [[u|e] ->]; eexists _, _; by split_and!.
  - intros self task. unfold remove, mbind, M_bind, on_self, on_other, get_self.
    destruct (subscript_uuid_quiet task) as [[u|e] ->]; [|eexists _, _; by split_and!].
    destruct (bool_decide (u ∈ _uuids self)); eexists _, _; by split_and!.
  - intros self. rewrite pop_by_order.
    destruct (elements (_uuids self)); eexists _, _; by split_and!.
  - done.
Qed.

Lemma inplace_on_identifiers (op : gset string → gset string → gset string)
    (self : t) (other : iterable) (ids : gset string) :
  yields other ids →
  (self ← on_self get_self;
   ids ← on_other uuids_of;
   on_self (set_uuids (op (_uuids self) ids));;
   on_self get_self) (self, other) =
    (Ok (with_uuids (op (_uuids self) ids) self),
     (with_uuids (op (_uuids self) ids) self, other), []).
Proof.
  intros Hy. unfold mbind, M_bind, on_self, on_other, get_self, set_uuids.
  by rewrite (uuids_of_yields _ _ Hy).
Qed.

Lemma symmetric_comm (a b : gset string) : symmetric a b = symmetric b a.
Proof. unfold symmetric. apply union_comm_L. Qed.

(** X7: with any iterable of record-like values as operand (a list mixing
    fetched tasks and lazy tasks, repeats included, or a lazy set) whose
    identifiers are [ids], each pure operation returns the set of the
    corresponding operation on identifiers and leaves [self] alone, and its
    in-place counterpart turns [self] into exactly that set and returns it. *)
Theorem inplace_agrees_with_pure (self : t) (other : iterable) (ids : gset string) :
  yields other ids →
  (union (self, other) =
     (Ok (with_uuids (_uuids self ∪ ids) self), (self, other), []) ∧
   update (self, other) =
     (Ok (with_uuids (_uuids self ∪ ids) self),
      (with_uuids (_uuids self ∪ ids) self, other), [])) ∧
  (intersection (self, other) =
     (Ok (with_uuids (_uuids self ∩ ids) self), (self, other), []) ∧
   intersection_update (self, other) =
     (Ok (with_uuids (_uuids self ∩ ids) self),
      (with_uuids (_uuids self ∩ ids) self, other), [])) ∧
  (difference (self, other) =
     (Ok (with_uuids (_uuids self ∖ ids) self), (self, other), []) ∧
   difference_update (self, other) =
     (Ok (with_uuids (_uuids self ∖ ids) self),
      (with_uuids (_uuids self ∖ ids) self, other), [])) ∧
  (symmetric_difference (self, other) =
     (Ok (with_uuids (symmetric (_uuids self) ids) self), (self, other), []) ∧
   symmetric_difference_update (self, other) =
     (Ok (with_uuids (symmetric (_uuids self) ids) self),
      (with_uuids (symmetric (_uuids self) ids) self, other), [])).
Proof.
  intros Hy. split_and!.
  - exact (algebra_on_identifiers (∪) self _ _ Hy).
  - exact (inplace_on_identifiers (∪) self _ _ Hy).
  - exact (algebra_on_identifiers (∩) self _ _ Hy).
  - exact (inplace_on_identifiers (∩) self _ _ Hy).
  - exact (algebra_on_identifiers (∖) self _ _ Hy).
  - exact (inplace_on_identifiers (∖) self _ _ Hy).
  - exact (algebra_on_identifiers symmetric self _ _ Hy).
  - exact (inplace_on_identifiers symmetric self _ _ Hy).
Qed.

Lemma mixed_list_yields : yields mixed_list (list_to_set ["u1"; "u9"; "u1"]).
Proof. apply yields_list. repeat constructor. Qed.

Lemma inplace_agrees_with_pure_witness :
  union (sample_set, mixed_list) =
    (Ok (with_uuids (_uuids sample_set ∪ list_to_set ["u1"; "u9"; "u1"]) sample_set),
     (sample_set, mixed_list), []) ∧
  update (sample_set, mixed_list) =
    (Ok (with_uuids (_uuids sample_set ∪ list_to_set ["u1"; "u9"; "u1"]) sample_set),
     (with_uuids (_uuids sample_set ∪ list_to_set ["u1"; "u9"; "u1"]) sample_set,
      mixed_list), []).
Proof.
  exact (proj1 (inplace_agrees_with_pure sample_set mixed_list _ mixed_list_yields)).
Defined.

(** X8: the reversed operators [other | self], [other & self] and
    [other ^ self] forward to [union], [intersection] and
    [symmetric_difference] with the operands swapped; since these three
    operations are commutative, the result holds the identifiers of [other]
    combined with those of [self] in the order written. *)
Theorem reversed_operators_are_right (self : t) (other : iterable) (ids : gset string) :
  yields other ids →
  __ror__ (self, other) =
    (Ok (with_uuids (ids ∪ _uuids self) self), (self, other), []) ∧
  __rand__ (self, other) =
    (Ok (with_uuids (ids ∩ _uuids self) self), (self, other), []) ∧
  __rxor__ (self, other) =
    (Ok (with_uuids (symmetric ids (_uuids self)) self), (self, other), []).
Proof.
  intros Hy. split_and!.
  - rewrite (union_comm_L ids). exact (algebra_on_identifiers (∪) self _ _ Hy).
  - rewrite (intersection_comm_L ids). exact (algebra_on_identifiers (∩) self _ _ Hy).
  - rewrite (symmetric_comm ids). exact (algebra_on_identifiers symmetric self _ _ Hy).
Qed.

Lemma reversed_operators_are_right_witness :
  __ror__ (sample_set, mixed_list) =
    (Ok (with_uuids (list_to_set ["u1"; "u9"; "u1"] ∪ _uuids sample_set) sample_set),
     (sample_set, mixed_list), []) ∧
  __rand__ (sample_set, mixed_list) =
    (Ok (with_uuids (list_to_set ["u1"; "u9"; "u1"] ∩ _uuids sample_set) sample_set),
     (sample_set, mixed_list), []) ∧
  __rxor__ (sample_set, mixed_list) =
    (Ok (with_uuids (symmetric (list_to_set ["u1"; "u9"; "u1"]) (_uuids sample_set))
           sample_set),
     (sample_set, mixed_list), []).
Proof.
  exact (reversed_operators_are_right sample_set mixed_list _ mixed_list_yields).
Defined.

(** X9: how the operations compose on lazy sets [A] and [B]. The symmetric
    difference is the union without the intersection; the difference
    together with the intersection gives [A] back; and [B - A] computed by
    [A.__rsub__(B)] holds the same identifiers as [B.difference(A)], on
    [A]'s store handle where the latter is on [B]'s. *)
Theorem operations_compose (A B : t) :
  ∃ U I D N,
    union (A, LazySet B) = (Ok U, (A, LazySet B), []) ∧
    intersection (A, LazySet B) = (Ok I, (A, LazySet B), []) ∧
    difference (A, LazySet B) = (Ok D, (A, LazySet B), []) ∧
    symmetric_difference (A, LazySet B) = (Ok N, (A, LazySet B), []) ∧
    difference (U, LazySet I) = (Ok N, (U, LazySet I), []) ∧
    union (D, LazySet I) = (Ok A, (D, LazySet I), []) ∧
    __rsub__ (A, LazySet B) =
      (Ok {| _tw := _tw A; _uuids := _uuids B ∖ _uuids A |}, (A, LazySet B), []) ∧
    difference (B, LazySet A) =
      (Ok {| _tw := _tw B; _uuids := _uuids B ∖ _uuids A |}, (B, LazySet A), []).
Proof.
  exists (with_uuids (_uuids A ∪ _uuids B) A), (with_uuids (_uuids A ∩ _uuids B) A),
         (with_uuids (_uuids A ∖ _uuids B) A), (with_uuids (symmetric (_uuids A) (_uuids B)) A).
  pose proof (yields_set B) as HB. pose proof (yields_set A) as HA.
  split_and!.
  - exact (algebra_on_identifiers (∪) A _ _ HB).
  - exact (algebra_on_identifiers (∩) A _ _ HB).
  - exact (algebra_on_identifiers (∖) A _ _ HB).
  - exact (algebra_on_identifiers symmetric A _ _ HB).
  - etrans; [exact (algebra_on_identifiers (∖) _ _ _ (yields_set _))|].
    unfold with_uuids; cbn.
    assert ((_uuids A ∪ _uuids B) ∖ (_uuids A ∩ _uuids B) = symmetric (_uuids A) (_uuids B))
      as ->; [|done].
    apply set_eq. intros x.
    rewrite elem_of_symmetric, elem_of_difference, elem_of_union, elem_of_intersection.
    tauto.
  - etrans; [exact (algebra_on_identifiers (∪) _ _ _ (yields_set _))|].
    unfold with_uuids; cbn. destruct A as [tw ids]; cbn.
    assert (ids ∖ _uuids B ∪ ids ∩ _uuids B = ids) as ->; [|done].
    apply set_eq. intros x.
    rewrite elem_of_union, elem_of_difference, elem_of_intersection.
    destruct (decide (x ∈ _uuids B)); tauto.
  - unfold __rsub__, mbind, M_bind, on_self, on_other, get_self; cbn [fst snd].
    rewrite (uuids_of_yields _ _ HB); cbn. by rewrite init_of_elements.
  - exact (algebra_on_identifiers (∖) B _ _ HA).
Qed.

Lemma add_exposed (self : t) (task : pyobj) (u : string) :
  exposes task u →
  add (self, task) = (Ok tt, (with_uuids ({[u]} ∪ _uuids self) self, task), []).
Proof.
  intros Hu. unfold add, mbind, M_bind, on_self, on_other, get_self, set_uuids.
  by rewrite (subscript_exposes _ _ Hu).
Qed.

Lemma contains_exposed (self : t) (task : pyobj) (u : string) :
  exposes task u →
  __contains__ (self, task) = (Ok (bool_decide (u ∈ _uuids self)), (self, task), []).
Proof.
  intros Hu. unfold __contains__, mbind, M_bind, on_self, on_other, get_self.
  by rewrite (subscript_exposes _ _ Hu).
Qed.

Lemma len_is_size (self : t) :
  __len__ self = (Ok (size (_uuids self)), self, []).
Proof. reflexivity. Qed.

Lemma size_add (u : string) (ids : gset string) :
  size ({[u]} ∪ ids) = if bool_decide (u ∈ ids) then size ids else S (size ids).
Proof.
  case_bool_decide as Hu.
  - f_equal. apply subseteq_union_1_L. by apply singleton_subseteq_l.
  - rewrite size_union, size_singleton; [done|]. by apply disjoint_singleton_l.
Qed.

(** X10: after [add(task)] the task is contained in the set; adding it a
    second time changes nothing more; and the length has grown by one when
    the identifier was new and not at all when it was already stored. *)
Theorem add_makes_member (self : t) (task : pyobj) (u : string) :
  exposes task u →
  (add;; __contains__) (self, task) =
    (Ok true, (with_uuids ({[u]} ∪ _uuids self) self, task), []) ∧
  (add;; add) (self, task) = add (self, task) ∧
  (add;; on_self __len__) (self, task) =
    (Ok (if bool_decide (u ∈ _uuids self) then size (_uuids self)
         else S (size (_uuids self))),
     (with_uuids ({[u]} ∪ _uuids self) self, task), []).
Proof.
  intros Hu. unfold mbind, M_bind at 1 2 3. rewrite !(add_exposed _ _ _ Hu).
  split_and!.
  - rewrite (contains_exposed _ _ _ Hu); cbn.
    rewrite bool_decide_eq_true_2; [done|].
    by apply elem_of_union_l, elem_of_singleton_2.
  - unfold with_uuids; cbn.
    by rewrite (assoc_L (∪)), (idemp_L (∪)).
  - unfold on_self. rewrite len_is_size. cbn. by rewrite size_add.
Qed.

Lemma add_makes_member_witness :
  (add;; __contains__) (sample_set, LazyUUIDTask.OTask milk_task) =
    (Ok true,
     (with_uuids ({["u1"]} ∪ _uuids sample_set) sample_set,
      LazyUUIDTask.OTask milk_task), []).
Proof.
  refine (proj1 (add_makes_member sample_set (LazyUUIDTask.OTask milk_task) "u1" _)).
  by constructor.
Defined.

(** X11: [add] and [remove] undo each other: adding a record-like value
    whose identifier is not stored and removing it again gives the set back,
    and so does removing a stored one and adding it again. *)
Theorem add_remove_round_trip (self : t) (task : pyobj) (u : string) :
  exposes task u →
  (u ∉ _uuids self → (add;; remove) (self, task) = (Ok tt, (self, task), [])) ∧
  (u ∈ _uuids self → (remove;; add) (self, task) = (Ok tt, (self, task), [])).
Proof.
  intros Hu. unfold mbind, M_bind at 1 2. split.
  - intros Hnew. rewrite (add_exposed _ _ _ Hu), (remove_by_membership _ _ _ Hu).
    cbn. rewrite bool_decide_eq_true_2 by (apply elem_of_union_l, elem_of_singleton_2; done).
    destruct self as [tw ids]; unfold with_uuids; cbn in *.
    assert (({[u]} ∪ ids) ∖ {[u]} = ids) as ->; [|done].
    apply set_eq. intros x.
    rewrite elem_of_difference, elem_of_union, elem_of_singleton.
    destruct (decide (x = u)) as [->|]; tauto.
  - intros Hold. rewrite (remove_by_membership _ _ _ Hu).
    rewrite bool_decide_eq_true_2 by done. rewrite (add_exposed _ _ _ Hu).
    destruct self as [tw ids]; unfold with_uuids; cbn in *.
    by rewrite <- (union_difference_singleton_L u ids Hold).
Qed.

Lemma add_remove_round_trip_witness :
  (add;; remove) (sample_set, LazyUUIDTask.OLazy (LazyUUIDTask.__init__ sample_tw "u7")) =
    (Ok tt, (sample_set, LazyUUIDTask.OLazy (LazyUUIDTask.__init__ sample_tw "u7")), []).
Proof.
  refine (proj1 (add_remove_round_trip sample_set
                   (LazyUUIDTask.OLazy (LazyUUIDTask.__init__ sample_tw "u7")) "u7" _) _).
  - exact (exposes_lazy (LazyUUIDTask.__init__ sample_tw "u7")).
  - apply (bool_decide_unpack _). reflexivity.
Defined.

(** X12: [clear] empties the set: afterwards its length is 0, [pop]
    raises [KeyError], and no record-like value is contained. *)
Theorem clear_empties (self : t) :
  (clear;; __len__) self = (Ok 0, with_uuids ∅ self, []) ∧
  (clear;; pop) self =
    (Raise (KeyError "pop from an empty set"), with_uuids ∅ self, []) ∧
  (∀ task u, exposes task u →
     (on_self clear;; __contains__) (self, task) =
       (Ok false, (with_uuids ∅ self, task), [])).
Proof.
  split_and!.
  - reflexivity.
  - unfold mbind, M_bind at 1. unfold clear, set_uuids. by rewrite pop_by_order.
  - intros task u Hu. unfold mbind, M_bind at 1. unfold on_self, clear, set_uuids.
    by rewrite (contains_exposed _ _ _ Hu).
Qed.

Lemma pops_succ (n : nat) (self : t) :
  pops (S n) self =
    match pop self with
    | (Ok u, s1, c1) =>
        match pops n s1 with
        | (Ok us, s2, c2) => (Ok (u :: us), s2, c1 ++ (c2 ++ []))
        | (Raise e, s2, c2) => (Raise e, s2, c1 ++ c2)
        end
    | (Raise e, s1, c1) => (Raise e, s1, c1)
    end.
Proof.
  change (pops (S n) self)
    with ((pop ≫= λ u, pops n ≫= λ us, mret (u :: us)) self).
  unfold mbind at 1. unfold M_bind at 1.
  destruct (pop self) as [[[u|e] s1] c1]; [|done].
  unfold mbind at 1. unfold M_bind at 1.
  by destruct (pops n s1) as [[[us|e] s2] c2].
Qed.

Lemma with_uuids_same (self : t) : with_uuids (_uuids self) self = self.
Proof. by destruct self. Qed.

Lemma size_after_pop (u : string) (ids : gset string) :
  u ∈ ids → size (ids ∖ {[u]}) = pred (size ids).
Proof.
  intros Hu. rewrite size_difference by (by apply singleton_subseteq_l).
  rewrite size_singleton. lia.
Qed.

(** [n] pops on a set of at least [n] identifiers. *)
Lemma pops_spec (n : nat) (self : t) :
  (n ≤ size (_uuids self))%nat →
  ∃ us,
    pops n self = (Ok us, with_uuids (_uuids self ∖ list_to_set us) self, []) ∧
    NoDup us ∧ (∀ u, u ∈ us → u ∈ _uuids self) ∧ length us = n.
Proof.
  revert self. induction n as [|n IH]; intros self Hn.
  - exists []. split_and!; [|constructor|by intros u ?%elem_of_nil|done].
    cbn. by rewrite difference_empty_L, with_uuids_same.
  - rewrite pops_succ, pop_by_order.
    destruct (elements (_uuids self)) as [|u rest] eqn:Hel.
    { apply elements_empty_inv, leibniz_equiv in Hel.
      rewrite Hel, size_empty in Hn. lia. }
    assert (u ∈ _uuids self) as Hu.
    { apply elem_of_elements. rewrite Hel. apply list_elem_of_here. }
    destruct (IH (with_uuids (_uuids self ∖ {[u]}) self)) as (us & Hpops & Hnd & Hin & Hlen).
    { cbn. rewrite size_after_pop by done. lia. }
    rewrite Hpops. exists (u :: us). cbn in *. split_and!.
    + unfold with_uuids; cbn. by rewrite difference_difference_l_L.
    + constructor; [|done]. intros [_ Hne]%Hin%elem_of_difference.
      by apply Hne, elem_of_singleton.
    + intros x [->|[Hx _]%Hin%elem_of_difference]%elem_of_cons; done.
    + by rewrite Hlen.
Qed.

(** Popping more often than the set has identifiers. *)
Lemma pops_too_many (n : nat) (self : t) :
  (size (_uuids self) < n)%nat →
  pops n self = (Raise (KeyError "pop from an empty set"), with_uuids ∅ self, []).
Proof.
  revert self. induction n as [|n IH]; intros self Hn; [lia|].
  rewrite pops_succ, pop_by_order.
  destruct (elements (_uuids self)) as [|u rest] eqn:Hel.
  - apply elements_empty_inv, leibniz_equiv in Hel.
    by rewrite <- Hel, with_uuids_same.
  - assert (u ∈ _uuids self) as Hu.
    { apply elem_of_elements. rewrite Hel. apply list_elem_of_here. }
    rewrite IH; [done|]. cbn. rewrite size_after_pop by done.
    assert (size (_uuids self) ≠ 0); [|lia].
    intros Hz%size_empty_inv. set_solver.
Qed.

(** X13: [n] pops in a row on a set of at least [n] identifiers return
    [n] different stored identifiers, leave exactly the others in the set,
    and bring its length down by [n]; the backend is never asked. *)
Theorem pops_take_distinct_members (n : nat) (self : t) :
  (n ≤ size (_uuids self))%nat →
  ∃ us,
    pops n self = (Ok us, with_uuids (_uuids self ∖ list_to_set us) self, []) ∧
    NoDup us ∧ (∀ u, u ∈ us → u ∈ _uuids self) ∧ length us = n ∧
    (pops n;; __len__) self =
      (Ok (size (_uuids self) - n), with_uuids (_uuids self ∖ list_to_set us) self, []).
Proof.
  intros Hn. destruct (pops_spec n self Hn) as (us & Hpops & Hnd & Hin & Hlen).
  exists us. split_and!; try done.
  unfold mbind, M_bind at 1. rewrite Hpops, len_is_size. cbn. do 2 f_equal. f_equal.
  rewrite size_difference.
  - rewrite size_list_to_set by done. by rewrite Hlen.
  - intros x Hx%elem_of_list_to_set. by apply Hin.
Qed.

Lemma pops_take_distinct_members_witness :
  ∃ us,
    pops 1 sample_set =
      (Ok us, with_uuids (_uuids sample_set ∖ list_to_set us) sample_set, []) ∧
    NoDup us ∧ (∀ u, u ∈ us → u ∈ _uuids sample_set) ∧ length us = 1 ∧
    (pops 1;; __len__) sample_set =
      (Ok (size (_uuids sample_set) - 1),
       with_uuids (_uuids sample_set ∖ list_to_set us) sample_set, []).
Proof.
  apply (pops_take_distinct_members 1 sample_set).
  apply (bool_decide_unpack _). reflexivity.
Defined.

(** X14: popping as many times as the set is long returns every stored
    identifier exactly once and leaves the set empty; popping once more
    than that raises [KeyError], with the set empty as well. *)
Theorem pops_drain_the_set (self : t) :
  (∃ us,
     pops (size (_uuids self)) self = (Ok us, with_uuids ∅ self, []) ∧
     us ≡ₚ elements (_uuids self)) ∧
  pops (S (size (_uuids self))) self =
    (Raise (KeyError "pop from an empty set"), with_uuids ∅ self, []).
Proof.
  split; [|apply pops_too_many; lia].
  destruct (pops_spec _ self (le_n _)) as (us & Hpops & Hnd & Hin & Hlen).
  assert (us ≡ₚ elements (_uuids self)) as Hperm.
  { apply submseteq_length_Permutation.
    - apply NoDup_submseteq; [done|]. intros x Hx. by apply elem_of_elements, Hin.
    - by rewrite Hlen. }
  exists us. split; [|done]. rewrite Hpops. do 2 f_equal. unfold with_uuids. f_equal.
  apply set_eq. intros x. rewrite elem_of_difference, elem_of_list_to_set, Hperm.
  rewrite elem_of_elements, elem_of_empty. tauto.
Qed.

Lemma contains_each_exposed (self : t) (l : list pyobj) (us : list string) :
  Forall2 exposes l us →
  contains_each self l =
    (Ok ((λ u, bool_decide (u ∈ _uuids self)) <$> us), (self, l), []).
Proof.
  induction 1 as [|task u rest us' Hu _ IH]; [done|].
  cbn [contains_each]. by rewrite (contains_exposed _ _ _ Hu), IH.
Qed.

Lemma all_members (ids : gset string) (us : list string) :
  forallb id ((λ u, bool_decide (u ∈ ids)) <$> us) =
    bool_decide (list_to_set us ⊆ ids).
Proof.
  induction us as [|u us IH]; cbn.
  - symmetry. apply bool_decide_eq_true_2, empty_subseteq.
  - rewrite IH, <- bool_decide_and.
    apply bool_decide_ext. rewrite union_subseteq, singleton_subseteq_l. done.
Qed.

Lemma iterated_tasks_expose (tw : TaskWarrior) (us : list string) :
  Forall2 exposes (LazyUUIDTask.OLazy <$> (LazyUUIDTask.__init__ tw <$> us)) us.
Proof.
  induction us as [|u us IH]; cbn; constructor; [|done].
  exact (exposes_lazy (LazyUUIDTask.__init__ tw u)).
Qed.

Lemma issuperset_lazy (self s : t) :
  issuperset (self, LazySet s) =
    (Ok (bool_decide (_uuids s ⊆ _uuids self)), (self, LazySet s), []).
Proof.
  unfold issuperset.
  change (__iter__ s)
    with (Ok (LazyUUIDTask.__init__ (_tw s) <$> elements (_uuids s)), s, @nil call).
  cbv beta iota zeta.
  rewrite (contains_each_exposed _ _ _ (iterated_tasks_expose _ _)). cbn.
  by rewrite all_members, list_to_set_elements_L.
Qed.

(** X15: [issuperset] (and [>=]) of an iterable of record-like values
    answers whether every one of their identifiers is stored; it is true of
    an empty operand, fetches nothing and changes neither side. *)
Theorem issuperset_is_inclusion (self : t) (other : iterable) (ids : gset string) :
  yields other ids →
  issuperset (self, other) =
    (Ok (bool_decide (ids ⊆ _uuids self)), (self, other), []) ∧
  __ge__ (self, other) =
    (Ok (bool_decide (ids ⊆ _uuids self)), (self, other), []).
Proof.
  intros Hy. enough (issuperset (self, other) =
    (Ok (bool_decide (ids ⊆ _uuids self)), (self, other), [])) by done.
  destruct Hy as [l us Hl|s].
  - unfold issuperset. rewrite (contains_each_exposed _ _ _ Hl). cbn.
    by rewrite all_members.
  - apply issuperset_lazy.
Qed.

Lemma issuperset_is_inclusion_witness :
  issuperset (sample_set, mixed_list) =
    (Ok (bool_decide (list_to_set ["u1"; "u9"; "u1"] ⊆ _uuids sample_set)),
     (sample_set, mixed_list), []) ∧
  __ge__ (sample_set, mixed_list) =
    (Ok (bool_decide (list_to_set ["u1"; "u9"; "u1"] ⊆ _uuids sample_set)),
     (sample_set, mixed_list), []).
Proof.
  exact (issuperset_is_inclusion sample_set mixed_list _ mixed_list_yields).
Defined.

Lemma set_eq_lazy (A B : t) :
  __eq__ (A, LazySet B) =
    (Ok (bool_decide (_uuids B = _uuids A)), (A, LazySet B), []).
Proof.
  by rewrite set_eq_follows_extraction, (uuids_of_yields _ _ (yields_set B)).
Qed.

(** X16: equality between lazy sets compares the identifier sets and
    nothing else (not the store handles); it is reflexive, symmetric and
    transitive. On every operand, [!=] returns the negation of what [==]
    returns and raises whatever [==] raises. *)
Theorem set_equality_is_an_equivalence (A B C : t) :
  (__eq__ (A, LazySet B)).1.1 = Ok (bool_decide (_uuids A = _uuids B)) ∧
  (__eq__ (A, LazySet A)).1.1 = Ok true ∧
  (__eq__ (A, LazySet B)).1.1 = (__eq__ (B, LazySet A)).1.1 ∧
  ((__eq__ (A, LazySet B)).1.1 = Ok true →
   (__eq__ (B, LazySet C)).1.1 = Ok true →
   (__eq__ (A, LazySet C)).1.1 = Ok true) ∧
  (∀ other, (__ne__ (A, other)).1.1 = result_map negb (__eq__ (A, other)).1.1).
Proof.
  rewrite !set_eq_lazy. cbn [fst]. split_and!.
  - f_equal. apply bool_decide_ext. naive_solver.
  - by rewrite bool_decide_eq_true_2.
  - f_equal. apply bool_decide_ext. naive_solver.
  - intros [= Hab%bool_decide_eq_true] [= Hbc%bool_decide_eq_true].
    rewrite bool_decide_eq_true_2; congruence.
  - intros other. unfold __ne__, mbind. unfold M_bind at 1.
    by destruct (__eq__ (A, other)) as [[[b|e] st] calls].
Qed.

(** X17: the query of a small set. Materializing an empty lazy set sends
    the backend the empty query string, and materializing a set of one
    identifier sends that identifier with no separator. *)
Theorem small_sets_query (self : t) (name : string) :
  String.prefix "__" name = false →
  (_uuids self = ∅ → (__getattr__ name self).2 = [Filter ""]) ∧
  (∀ u, _uuids self = {[u]} → (__getattr__ name self).2 = [Filter u]).
Proof.
  intros Hname. unfold __getattr__, refresh. rewrite Hname. split.
  - intros ->. rewrite elements_empty. cbn. by destruct (tasks_filter _ _).
  - intros u ->. rewrite elements_singleton. cbn. by destruct (tasks_filter _ _).
Qed.

Lemma small_sets_query_witness :
  (__getattr__ "count" (__init__ sample_tw [])).2 = [Filter ""].
Proof.
  refine (proj1 (small_sets_query (__init__ sample_tw []) "count" _) _); reflexivity.
Defined.

(** X18: iteration agrees with length and containment: it yields as many
    tasks as the set is long, all different, each one unfetched, on the
    set's store handle and contained in the set; an identifier is stored
    exactly when its lazy task is yielded; and the set is a superset of
    itself. *)
Theorem iteration_is_consistent (self : t) :
  ∃ tasks,
    __iter__ self = (Ok tasks, self, []) ∧
    __len__ self = (Ok (length tasks), self, []) ∧
    NoDup tasks ∧
    Forall (λ task,
              LazyUUIDTask.content task = None ∧
              LazyUUIDTask._tw task = _tw self ∧
              __contains__ (self, LazyUUIDTask.OLazy task) =
                (Ok true, (self, LazyUUIDTask.OLazy task), [])) tasks ∧
    (∀ u, u ∈ _uuids self ↔ LazyUUIDTask.__init__ (_tw self) u ∈ tasks) ∧
    issuperset (self, LazySet self) = (Ok true, (self, LazySet self), []).
Proof.
  assert (Inj (=) (=) (LazyUUIDTask.__init__ (_tw self))) as Hinj.
  { by intros u v [= ->]. }
  exists (LazyUUIDTask.__init__ (_tw self) <$> elements (_uuids self)). split_and!.
  - reflexivity.
  - rewrite len_is_size, length_fmap. reflexivity.
  - apply NoDup_fmap_2; [done|apply NoDup_elements].
  - apply Forall_fmap, Forall_forall. intros u Hu%elem_of_elements. cbn.
    split_and!; [done|done|].
    rewrite (contains_exposed _ _ _ (exposes_lazy _)). cbn.
    by rewrite bool_decide_eq_true_2.
  - intros u. rewrite (list_elem_of_fmap_inj _), elem_of_elements. done.
  - rewrite issuperset_lazy. by rewrite bool_decide_eq_true_2.
Qed.

(** X19: an element that gives no identifier. For a task without a
    [uuid] field, [in], [add] and [remove] raise the [KeyError] of the
    failed lookup (naming ["uuid"]); for an object that cannot be
    subscripted they raise [TypeError]. The set is left as it was. *)
Theorem element_without_identifier (self : t) (task : Task) :
  task_data task !! "uuid" = None →
  (__contains__ (self, LazyUUIDTask.OTask task) =
     (Raise (KeyError "uuid"), (self, LazyUUIDTask.OTask task), []) ∧
   add (self, LazyUUIDTask.OTask task) =
     (Raise (KeyError "uuid"), (self, LazyUUIDTask.OTask task), []) ∧
   remove (self, LazyUUIDTask.OTask task) =
     (Raise (KeyError "uuid"), (self, LazyUUIDTask.OTask task), [])) ∧
  (__contains__ (self, LazyUUIDTask.ONone) =
     (Raise TypeError, (self, LazyUUIDTask.ONone), []) ∧
   add (self, LazyUUIDTask.ONone) = (Raise TypeError, (self, LazyUUIDTask.ONone), []) ∧
   remove (self, LazyUUIDTask.ONone) = (Raise TypeError, (self, LazyUUIDTask.ONone), [])).
Proof.
  intros Hnone. split; [|by split_and!].
  unfold __contains__, add, remove, mbind, M_bind, on_self, on_other, get_self; cbn.
  unfold Task_getitem. rewrite Hnone. by split_and!.
Qed.

Lemma element_without_identifier_witness :
  __contains__ (sample_set, LazyUUIDTask.OTask bare_task) =
    (Raise (KeyError "uuid"), (sample_set, LazyUUIDTask.OTask bare_task), []).
Proof.
  refine (proj1 (proj1 (element_without_identifier sample_set bare_task _))).
  reflexivity.
Defined.

(** The operations that extract identifiers from an iterable. *)
Lemma algebra_propagates (self : t) (other : iterable) (e : exn) :
  uuids_of other = (Raise e, other, []) →
  Forall (λ m : M (t * iterable) t, m (self, other) = (Raise e, (self, other), []))
    [union; intersection; difference; symmetric_difference; __rsub__;
     update; intersection_update; difference_update; symmetric_difference_update].
Proof.
  intros Hstop.
  repeat constructor;
    unfold union, intersection, difference, symmetric_difference, __rsub__, update,
      intersection_update, difference_update, symmetric_difference_update,
      mbind, M_bind, on_self, on_other, get_self; cbn; by rewrite Hstop.
Qed.

(** X20: an operand the identifiers cannot be extracted from. When an
    element of a list operand has no [uuid] field, every set operation and
    every in-place operation raises the [KeyError] of that lookup, and when
    the operand cannot be iterated they raise [TypeError]; no set is built
    and [self] is not modified, not even by the in-place operations. *)
Theorem algebra_stops_without_identifier (self : t) (l : list pyobj) (us : list string)
    (task : Task) (rest : list pyobj) :
  Forall2 exposes l us →
  task_data task !! "uuid" = None →
  Forall (λ m : M (t * iterable) t,
            m (self, PyList (l ++ LazyUUIDTask.OTask task :: rest)) =
              (Raise (KeyError "uuid"),
               (self, PyList (l ++ LazyUUIDTask.OTask task :: rest)), []) ∧
            m (self, NotIterable) = (Raise TypeError, (self, NotIterable), []))
    [union; intersection; difference; symmetric_difference; __rsub__;
     update; intersection_update; difference_update; symmetric_difference_update].
Proof.
  intros Hl Hnone.
  assert (uuids_of (PyList (l ++ LazyUUIDTask.OTask task :: rest)) =
            (Raise (KeyError "uuid"), PyList (l ++ LazyUUIDTask.OTask task :: rest), []))
    as Hstop.
  { unfold uuids_of. rewrite (for_each_stops l us _ rest (KeyError "uuid") Hl); [done|].
    cbn. unfold Task_getitem. by rewrite Hnone. }
  pose proof (algebra_propagates self _ _ Hstop) as Hlist.
  pose proof (algebra_propagates self NotIterable TypeError eq_refl) as Hnot.
  apply Forall_forall. intros m Hm. split.
  - by apply (proj1 (Forall_forall _ _) Hlist).
  - by apply (proj1 (Forall_forall _ _) Hnot).
Qed.

Lemma algebra_stops_without_identifier_witness :
  Forall (λ m : M (t * iterable) t,
            m (sample_set,
               PyList ([LazyUUIDTask.OTask milk_task] ++
                       LazyUUIDTask.OTask bare_task :: [LazyUUIDTask.ONone])) =
              (Raise (KeyError "uuid"),
               (sample_set,
                PyList ([LazyUUIDTask.OTask milk_task] ++
                        LazyUUIDTask.OTask bare_task :: [LazyUUIDTask.ONone])), []) ∧
            m (sample_set, NotIterable) = (Raise TypeError, (sample_set, NotIterable), []))
    [union; intersection; difference; symmetric_difference; __rsub__;
     update; intersection_update; difference_update; symmetric_difference_update].
Proof.
  apply (algebra_stops_without_identifier sample_set [LazyUUIDTask.OTask milk_task] ["u1"]
           bare_task [LazyUUIDTask.ONone]).
  - repeat constructor.
  - reflexivity.
Defined.

End set_more.
